(** * Chart composition of irfsim/trade-analytics

    A shallow embedding of the two chart renderers of the repository,
    [scripts/chart-server.py] (module [ChartServer]) and
    [api/chart-image/index.py] (module [ChartImage]), and the properties of
    their [generate_chart] functions.

    Conventions of the embedding.
    - Python floats are read as exact rationals ([Q]); the decimal constants
      of the source (0.04, 0.08, 0.15) are the rationals they denote.
      Rounding is not modelled; module [Binary64] recomputes the horizontal
      offsets on IEEE doubles.
    - pandas and matplotlib are libraries, not code of the repository.  The
      two pandas entry points whose result depends on library internals,
      [pd.Timestamp(str)] and [DatetimeIndex.get_indexer(..., 'nearest')],
      and the axis range reported by matplotlib are parameters of the
      renderers; the general properties hold for all of them.
    - mplfinance is a library as well.  Of [mpf.make_mpf_style] the check of
      the keyword names is modelled (module [Mpf]), since it decides whether
      a renderer gets as far as drawing; the values both renderers pass are
      valid for their keywords and are left out.
    - A figure is the list of drawing commands issued on the price axis; the
      PNG serialisation of the figure is not modelled.
    - A leg is a JSON object with its values at their JSON types; a key may
      be missing. *)

From stdpp Require Import gmap strings list.
From Stdlib Require Import Ascii ZArith QArith Qminmax Qabs Lia Lqa.
From Stdlib Require Import Floats.

Set Warnings "-inexact-float".

Local Open Scope Z_scope.

(** ** Numbers *)

(** [a < b] and [a > b] on floats, as booleans. *)
Definition Qlt_bool (a b : Q) : bool := negb (Qle_bool b a).

Definition Qgt_bool (a b : Q) : bool := Qlt_bool b a.

(** Truth value of a float in a Python condition: false exactly for zero. *)
Definition truthy (x : Q) : bool := negb (Qeq_bool x 0).

(** ** The pandas objects the renderers touch *)

Module Pandas.

(** A time zone: its name and its offset from UTC, in nanoseconds, at a
    given UTC instant. *)
Record tzinfo := { tzname : string; utcoffset : Z -> Z }.

Definition UTC : tzinfo := {| tzname := "UTC"; utcoffset := fun _ => 0 |}.

(** [pd.Timestamp]: [value] counts nanoseconds since the epoch, in UTC for
    an aware timestamp and on the wall clock for a naive one. *)
Record Timestamp := { value : Z; tz : option tzinfo }.

(** [ts.tz_localize('UTC')]: TypeError ([None]) on an aware timestamp. *)
Definition tz_localize_UTC (ts : Timestamp) : option Timestamp :=
  match tz ts with
  | None => Some {| value := value ts; tz := Some UTC |}
  | Some _ => None
  end.

(** [ts.tz_localize(None)]: keeps the wall-clock reading, drops the zone. *)
Definition tz_localize_None (ts : Timestamp) : Timestamp :=
  match tz ts with
  | None => ts
  | Some z => {| value := value ts + utcoffset z (value ts); tz := None |}
  end.

(** [ts.tz_convert(z)]: same instant, other zone; TypeError ([None]) on a
    naive timestamp. *)
Definition tz_convert (z : tzinfo) (ts : Timestamp) : option Timestamp :=
  match tz ts with
  | None => None
  | Some _ => Some {| value := value ts; tz := Some z |}
  end.

(** One row of the OHLCV frame, with its index entry. *)
Record Bar := {
  time : Z;
  Open : Q;
  High : Q;
  Low : Q;
  Close : Q;
  Volume : Q
}.

(** [data.index]: the time stamps of the rows and the zone of the index. *)
Record DatetimeIndex := { index_tz : option tzinfo; index_values : list Z }.

Record DataFrame := { frame_tz : option tzinfo; rows : list Bar }.

Definition index (data : DataFrame) : DatetimeIndex :=
  {| index_tz := frame_tz data; index_values := map time (rows data) |}.

(** [data.empty] *)
Definition empty (data : DataFrame) : bool :=
  match rows data with
  | [] => true
  | _ :: _ => false
  end.

(** [len(data)] *)
Definition len (data : DataFrame) : Z := Z.of_nat (length (rows data)).

(** [data.iloc[idx]] for a position already checked to be non-negative;
    [None] is IndexError. *)
Definition iloc (data : DataFrame) (idx : Z) : option Bar :=
  rows data !! Z.to_nat idx.

(** [Series.max()] and [Series.min()]; Python's [max(a, b)] and [min(a, b)]
    are [Qmax] and [Qmin]. *)
Definition series_max (s : list Q) : Q :=
  match s with
  | [] => 0
  | x :: xs => fold_left Qmax xs x
  end.

Definition series_min (s : list Q) : Q :=
  match s with
  | [] => 0
  | x :: xs => fold_left Qmin xs x
  end.

(** [data['High'].max()] and [data['Low'].min()] *)
Definition High_max (data : DataFrame) : Q := series_max (map High (rows data)).

Definition Low_min (data : DataFrame) : Q := series_min (map Low (rows data)).

(** A reference instance of [get_indexer(method='nearest')] for an index in
    increasing order: the position whose entry is closest to the target,
    the later one on a tie, and -1 on an empty index; it raises ([None])
    when the zone awareness of target and index differ.  Used to evaluate
    the renderers on examples. *)
Fixpoint nearest_from (pos : Z) (best : Z) (bestd : Z) (vs : list Z) (t : Z) : Z :=
  match vs with
  | [] => best
  | v :: vs' =>
      if Z.abs (t - v) <=? bestd
      then nearest_from (pos + 1) pos (Z.abs (t - v)) vs' t
      else nearest_from (pos + 1) best bestd vs' t
  end.

Definition nearest (ix : DatetimeIndex) (ts : Timestamp) : option Z :=
  match index_tz ix, tz ts with
  | Some _, None | None, Some _ => None
  | _, _ =>
      match index_values ix with
      | [] => Some (-1)
      | v :: vs => Some (nearest_from 1 0 (Z.abs (value ts - v)) vs (value ts))
      end
  end.

End Pandas.

(** ** What is drawn on the price axis *)

Module Mpl.

(** [ax.axhline(y=, color=)]; the legend label of index.py is left out. *)
Record HLine := { line_y : Q; line_color : string }.

(** [ax.scatter(x, y, marker=, color=, s=)] *)
Record Marker := {
  x_pos : Q;
  y_pos : Q;
  marker : string;
  color : string;
  s : Z
}.

(** The price axis when the figure is saved. *)
Record Figure := {
  hlines : list HLine;
  markers : list Marker;
  ylim : Q * Q;
  title : string
}.

End Mpl.

(** ** Requests and answers *)

Record Leg := {
  executed_at : option string;
  leg_type : option string;
  price : option Q
}.

Inductive exception :=
| ValueError (msg : string)
| KeyError (msg : string).

(** What [generate_chart] gives back: the saved figure, or the exception it
    raises. *)
Inductive result :=
| Png (fig : Mpl.Figure)
| Raise (e : exception).

(** The query string after [parse_qs], [float] and [json.loads]; a key
    that is absent is [None].  [q_legs] holds the legs parameter when it is
    a JSON array of objects; the other values [json.loads] can return (null,
    a number, true, false, a string, an object) are not represented, and
    nothing below speaks about requests that carry them. *)
Record Query := {
  q_ticker : option string;
  q_interval : option string;
  q_from : option string;
  q_to : option string;
  q_entry : option Q;
  q_exit : option Q;
  q_direction : option string;
  q_legs : option (list Leg)
}.

Inductive response :=
| Response200 (image : Mpl.Figure)
| Response500 (error : string).

(** [str(e)].  The text of a KeyError is the [repr] of its argument: for
    a message without apostrophe and backslash, the message between
    apostrophes. *)
Definition str (e : exception) : string :=
  match e with
  | ValueError msg => msg
  | KeyError msg => "'" +:+ msg +:+ "'"
  end.

(** ** mplfinance: the keywords of [make_mpf_style] *)

Module Mpf.

(** The keywords [mpf.make_mpf_style] knows. *)
Definition valid_make_mpf_style_kwargs : list string :=
  [ "base_mpf_style"; "base_mpl_style"; "marketcolors"; "mavcolors";
    "facecolor"; "edgecolor"; "figcolor"; "gridcolor"; "gridstyle";
    "gridaxis"; "y_on_right"; "rc"; "legacy_rc"; "style_name" ].

(** The double quote, as a string. *)
Definition dquote : string := String (ascii_of_nat 34) EmptyString.

(** The exception for a keyword outside the table: a KeyError whose message
    is Unrecognized kwarg= and the keyword between double quotes. *)
Definition unrecognized (key : string) : exception :=
  KeyError ("Unrecognized kwarg=" +:+ dquote +:+ key +:+ dquote).

(** The check of the keywords of a call, in the order they are passed: the
    first one outside the table raises. *)
Fixpoint process_kwargs (kwargs : list string) : option exception :=
  match kwargs with
  | [] => None
  | key :: kwargs =>
      if bool_decide (key ∈ valid_make_mpf_style_kwargs)
      then process_kwargs kwargs
      else Some (unrecognized key)
  end.

(** A style, as far as the renderers go: the keywords it was made from. *)
Record style := { style_kwargs : list string }.

(** [mpf.make_mpf_style]: the style, or the exception it raises. *)
Definition make_mpf_style (kwargs : list string) : style + exception :=
  match process_kwargs kwargs with
  | Some e => inr e
  | None => inl {| style_kwargs := kwargs |}
  end.

End Mpf.

(** Colours of the theme. *)
Definition green : string := "#10b981".

Definition red : string := "#ef4444".

Definition blue : string := "#3b82f6".

Definition amber : string := "#f59e0b".

Definition gray : string := "#71717a".

(** The exit line as both renderers compute it (chart-server.py lines
    224-232, index.py lines 149-158): the lines drawn after the entry line. *)
Definition exit_line (direction : string) (entry_price : Q)
    (exit_price : option Q) : list Mpl.HLine :=
  match exit_price with
  | Some exit_price =>
      if truthy exit_price then
        let is_profit :=
          if String.eqb direction "LONG"
          then Qgt_bool exit_price entry_price
          else Qlt_bool exit_price entry_price in
        [ {| Mpl.line_y := exit_price;
             Mpl.line_color := if is_profit then green else red |} ]
      else []
  | None => []
  end.

(** ** scripts/chart-server.py *)

Module ChartServer.
Import Pandas Mpl.

Section Render.

(** [pd.Timestamp(s)]; [None] when no timestamp comes out of it. *)
Variable pd_Timestamp : string -> option Timestamp.

(** [index.get_indexer([ts], method='nearest')[0]]; [None] when it raises. *)
Variable get_indexer : DatetimeIndex -> Timestamp -> option Z.

(** [ax_price.get_ylim()] once the base chart and the markers are drawn. *)
Variable get_ylim : DataFrame -> list Marker -> Q * Q.

(** [fetch_data(ticker, start_date, end_date, interval)]: the frame, or the
    message of the exception it raises. *)
Variable fetch_data : string -> option string -> option string -> string
                      -> DataFrame + string.

(** Lines 283-288. *)
Definition colors : gmap string string :=
  <["ENTRY" := green]> (<["ADD" := blue]> (<["TRIM" := amber]> (<["EXIT" := red]> ∅))).

(** Line 315. *)
Definition interval_labels : gmap string string :=
  <["1d" := "Daily"]> (<["1h" := "Hourly"]> (<["5m" := "5 Min"]> ∅)).

(** Lines 247-257: make [leg_date] match the zone of the index. *)
Definition match_index_tz (data : DataFrame) (leg_date : Timestamp)
  : option Timestamp :=
  match frame_tz data with
  | Some data_tz =>
      match tz leg_date with
      | None => tz_localize_UTC leg_date ≫= tz_convert data_tz
      | Some _ => tz_convert data_tz leg_date
      end
  | None =>
      match tz leg_date with
      | Some _ => Some (tz_localize_None leg_date)
      | None => Some leg_date
      end
  end.

(** The state the marker loop carries from leg to leg. *)
Record loop_state := {
  used_positions : gmap Z nat;
  scatter : list Marker
}.

(** [leg.get('leg_type') in ['ENTRY', 'ADD']] *)
Definition is_buy (leg : Leg) : bool :=
  match leg_type leg with
  | Some t => bool_decide (t ∈ ["ENTRY"; "ADD"])
  | None => false
  end.

(** Lines 269-273, for a marker that finds [marker_count] earlier ones. *)
Definition x_offset (buy : bool) (marker_count : nat) : Q :=
  if buy
  then (-0.15 + inject_Z (Z.of_nat marker_count) * 0.15)%Q
  else (0.15 + inject_Z (Z.of_nat marker_count) * 0.15)%Q.

(** [colors.get(leg.get('leg_type'), '#71717a')] *)
Definition leg_color (leg : Leg) : string :=
  default gray (leg_type leg ≫= fun t => colors !! t).

(** Lines 244-300, the body of [try]; [None] when it raises.  For a leg
    whose values are strings and numbers, as [Leg] has them, every statement
    that raises comes before the update of [used_positions], so such a leg
    leaves the state as it was when it raises. *)
Definition try_leg (data : DataFrame) (marker_offset : Q)
    (st : loop_state) (leg : Leg) : option loop_state :=
  let leg_date_str := default "" (executed_at leg) in
  leg_date ← pd_Timestamp leg_date_str;
  leg_date ← match_index_tz data leg_date;
  idx ← get_indexer (index data) leg_date;
  if bool_decide (0 <= idx < len data) then
    candle ← iloc data idx;
    let marker := if is_buy leg then "^" else "v" in
    let marker_count := default 0%nat (used_positions st !! idx) in
    let x_pos := (inject_Z idx + x_offset (is_buy leg) marker_count)%Q in
    let y_pos := if is_buy leg
                 then (Low candle - marker_offset)%Q
                 else (High candle + marker_offset)%Q in
    Some {| used_positions := <[idx := S marker_count]> (used_positions st);
            scatter := scatter st ++
              [ {| Mpl.x_pos := x_pos; Mpl.y_pos := y_pos;
                   Mpl.marker := marker; Mpl.color := leg_color leg;
                   Mpl.s := 150 |} ] |}
  else Some st.

(** One turn of [for leg in legs: try: ... except Exception: continue]. *)
Definition leg_step (data : DataFrame) (marker_offset : Q)
    (st : loop_state) (leg : Leg) : loop_state :=
  default st (try_leg data marker_offset st leg).

Definition marker_loop (data : DataFrame) (marker_offset : Q)
    (legs : list Leg) (st : loop_state) : loop_state :=
  fold_left (leg_step data marker_offset) legs st.

(** Lines 89-115: the keywords handed to [mpf.make_mpf_style].  The line
    width of the grid is an entry of [rc] here, not a keyword. *)
Definition create_custom_style : Mpf.style + exception :=
  Mpf.make_mpf_style
    [ "base_mpl_style"; "marketcolors"; "facecolor"; "edgecolor"; "figcolor";
      "gridcolor"; "gridstyle"; "y_on_right"; "rc" ].

(** Lines 182-330.  The figure size arguments do not reach the axis.  The
    style of line 198 is made without an exception (lemma
    [server_style_accepted]) and only colours the base chart. *)
Definition generate_chart (ticker : string) (data : DataFrame)
    (legs : list Leg) (entry_price : Q) (exit_price : option Q)
    (direction : string) (interval : string) : result :=
  if empty data then Raise (ValueError "No data available") else
  let entry_line := {| line_y := entry_price; line_color := green |} in
  let exit_line :=
    match exit_price with
    | Some exit_price =>
        if truthy exit_price then
          let is_profit :=
            if String.eqb direction "LONG"
            then Qgt_bool exit_price entry_price
            else Qlt_bool exit_price entry_price in
          [ {| line_y := exit_price;
               line_color := if is_profit then green else red |} ]
        else []
    | None => []
    end in
  let price_range := (High_max data - Low_min data)%Q in
  let marker_offset := (price_range * 0.04)%Q in
  let st := marker_loop data marker_offset legs
              {| used_positions := ∅; scatter := [] |} in
  let '(y_min, y_max) := get_ylim data (scatter st) in
  let data_low := Low_min data in
  let data_high := High_max data in
  let new_y_min := Qmin y_min (data_low - price_range * 0.08)%Q in
  let new_y_max := Qmax y_max (data_high + price_range * 0.08)%Q in
  Png {| hlines := entry_line :: exit_line;
         markers := scatter st;
         ylim := (new_y_min, new_y_max);
         title := ticker +:+ " - " +:+ default interval (interval_labels !! interval) |}.

(** Lines 341-384. *)
Definition handle_chart_request (params : Query) : response :=
  let ticker := default "AAPL" (q_ticker params) in
  let interval := default "1d" (q_interval params) in
  let from_date := q_from params in
  let to_date := q_to params in
  let entry_price := default 0%Q (q_entry params) in
  let exit_price := q_exit params in
  let direction := default "LONG" (q_direction params) in
  let legs := default [] (q_legs params) in
  match fetch_data ticker from_date to_date interval with
  | inr e => Response500 e
  | inl data =>
      match generate_chart ticker data legs entry_price exit_price
              direction interval with
      | Png image_bytes => Response200 image_bytes
      | Raise e => Response500 (str e)
      end
  end.

(** *** Derived notions, used to state the properties *)

(** The position a leg is drawn at, when it is drawn: the first half of
    [try_leg]. *)
Definition resolve (data : DataFrame) (leg : Leg) : option Z :=
  leg_date ← pd_Timestamp (default "" (executed_at leg));
  leg_date ← match_index_tz data leg_date;
  idx ← get_indexer (index data) leg_date;
  if bool_decide (0 <= idx < len data) then Some idx else None.

(** The marker of a leg drawn at [idx] on [candle] after [marker_count]
    earlier markers there: the second half of [try_leg]. *)
Definition draw (marker_offset : Q) (idx : Z) (candle : Bar)
    (marker_count : nat) (leg : Leg) : Marker :=
  {| Mpl.x_pos := (inject_Z idx + x_offset (is_buy leg) marker_count)%Q;
     Mpl.y_pos := if is_buy leg
                  then (Low candle - marker_offset)%Q
                  else (High candle + marker_offset)%Q;
     Mpl.marker := if is_buy leg then "^" else "v";
     Mpl.color := leg_color leg;
     Mpl.s := 150 |}.

(** The timestamp of the leg does not parse. *)
Definition unparseable (leg : Leg) : Prop :=
  pd_Timestamp (default "" (executed_at leg)) = None.

(** The timestamp of the leg parses and resolves to a position outside
    [0, len(data) - 1]. *)
Definition out_of_range (data : DataFrame) (leg : Leg) : Prop :=
  ∃ ts ts' idx,
    pd_Timestamp (default "" (executed_at leg)) = Some ts ∧
    match_index_tz data ts = Some ts' ∧
    get_indexer (index data) ts' = Some idx ∧
    ¬ (0 <= idx < len data).

(** How many of [legs] are drawn; how many at position [idx]; how many of
    one side ([buy] or not) at position [idx]. *)
Definition placed (data : DataFrame) (legs : list Leg) : nat :=
  length (filter (λ l, is_Some (resolve data l)) legs).

Definition placed_at (data : DataFrame) (idx : Z) (legs : list Leg) : nat :=
  length (filter (λ l, resolve data l = Some idx) legs).

Definition placed_side (data : DataFrame) (idx : Z) (buy : bool)
    (legs : list Leg) : nat :=
  length (filter (λ l, resolve data l = Some idx ∧ is_buy l = buy) legs).

(** [used_positions.get(idx, 0)] *)
Definition count (st : loop_state) (idx : Z) : nat :=
  default 0%nat (used_positions st !! idx).

End Render.

End ChartServer.

(** ** api/chart-image/index.py *)

Module ChartImage.
Import Pandas Mpl.

Section Render.

Variable pd_Timestamp : string -> option Timestamp.

Variable get_indexer : DatetimeIndex -> Timestamp -> option Z.

(** The range of the price axis when the figure is saved. *)
Variable get_ylim : DataFrame -> list Marker -> Q * Q.

Variable fetch_data : string -> option string -> option string -> string
                      -> DataFrame + string.

(** Line 170. *)
Definition is_buy (t : string) : bool := bool_decide (t ∈ ["ENTRY"; "ADD"]).

(** Line 172. *)
Definition leg_color (t : string) : string :=
  if String.eqb t "ENTRY" then green
  else if String.eqb t "ADD" then blue
  else if String.eqb t "TRIM" then amber
  else red.

(** Lines 163-183, the body of [try]; [None] when it raises.  A missing
    key is a KeyError. *)
Definition try_leg (data : DataFrame) (leg : Leg) : option (list Marker) :=
  s ← executed_at leg;
  ts ← pd_Timestamp s;
  let leg_date := tz_localize_None ts in
  idx ← get_indexer (index data) leg_date;
  if bool_decide (0 <= idx < len data) then
    let x_pos := inject_Z idx in
    y_pos ← price leg;
    t ← leg_type leg;
    let marker := if is_buy t then "^" else "v" in
    Some [ {| Mpl.x_pos := x_pos; Mpl.y_pos := y_pos;
              Mpl.marker := marker; Mpl.color := leg_color t;
              Mpl.s := 100 |} ]
  else Some [].

(** One turn of [for leg in legs: try: ... except Exception: continue]. *)
Definition leg_step (data : DataFrame) (scatter : list Marker) (leg : Leg)
  : list Marker :=
  scatter ++ default [] (try_leg data leg).

Definition marker_loop (data : DataFrame) (legs : list Leg)
    (scatter : list Marker) : list Marker :=
  fold_left (leg_step data) legs scatter.

(** Lines 47-73: the keywords handed to [mpf.make_mpf_style]; gridwidth
    is one of them (line 64). *)
Definition create_custom_style : Mpf.style + exception :=
  Mpf.make_mpf_style
    [ "base_mpl_style"; "marketcolors"; "facecolor"; "edgecolor"; "figcolor";
      "gridcolor"; "gridstyle"; "gridwidth"; "y_on_right"; "rc" ].

(** Lines 107-196.  The style is made at line 122, before anything is
    drawn; an exception of [create_custom_style] leaves the function.  The
    function has no [interval] argument and never sets the range of the
    axis. *)
Definition generate_chart (ticker : string) (data : DataFrame)
    (legs : list Leg) (entry_price : Q) (exit_price : option Q)
    (direction : string) : result :=
  if empty data then Raise (ValueError "No data available") else
  match create_custom_style with
  | inr e => Raise e
  | inl style =>
      let entry_line := {| line_y := entry_price; line_color := green |} in
      let exit_line :=
        match exit_price with
        | Some exit_price =>
            if truthy exit_price then
              let is_profit :=
                if String.eqb direction "LONG"
                then Qgt_bool exit_price entry_price
                else Qlt_bool exit_price entry_price in
              [ {| line_y := exit_price;
                   line_color := if is_profit then green else red |} ]
            else []
        | None => []
        end in
      let scatter := marker_loop data legs [] in
      Png {| hlines := entry_line :: exit_line;
             markers := scatter;
             ylim := get_ylim data scatter;
             title := ticker +:+ " - Daily" |}
  end.

(** Lines 200-244.  [interval] reaches [fetch_data] only. *)
Definition do_GET (params : Query) : response :=
  let ticker := default "AAPL" (q_ticker params) in
  let interval := default "1d" (q_interval params) in
  let from_date := q_from params in
  let to_date := q_to params in
  let entry_price := default 0%Q (q_entry params) in
  let exit_price := q_exit params in
  let direction := default "LONG" (q_direction params) in
  let legs := default [] (q_legs params) in
  match fetch_data ticker from_date to_date interval with
  | inr e => Response500 e
  | inl data =>
      match generate_chart ticker data legs entry_price exit_price
              direction with
      | Png image_bytes => Response200 image_bytes
      | Raise e => Response500 (str e)
      end
  end.

End Render.

End ChartImage.

(** ** The horizontal offsets on IEEE doubles *)

Module Binary64.

(** [float(n)] for a small count. *)
Definition of_count (n : Z) : float := PrimFloat.of_uint63 (Uint63.of_Z n).

(** Lines 269-273 of chart-server.py as Python evaluates them. *)
Definition x_offset (buy : bool) (marker_count : Z) : float :=
  if buy
  then (-0.15 + of_count marker_count * 0.15)%float
  else (0.15 + of_count marker_count * 0.15)%float.

End Binary64.

(** ** A small chart to evaluate the renderers on *)

Module Example.
Import Pandas Mpl.

Definition day : Z := 86400000000000.

Definition bar (d : Z) (o h l c : Q) : Bar :=
  {| time := d * day; Open := o; High := h; Low := l; Close := c; Volume := 1000 |}.

(** Five daily bars, 1970-01-01 to 1970-01-05: lows from 98, highs up to
    118. *)
Definition bars : list Bar :=
  [ bar 0 100 104 98 102; bar 1 102 106 100 105; bar 2 105 108 101 103;
    bar 3 103 110 102 109; bar 4 109 118 108 112 ].

(** The bars under an index without a zone, and under an index in UTC. *)
Definition daily : DataFrame := {| frame_tz := None; rows := bars |}.

Definition daily_utc : DataFrame := {| frame_tz := Some UTC; rows := bars |}.

(** A parser for the dates of the examples: "1970-01-0D" is midnight of
    that day on the wall clock, "1970-01-0DT00:00:00Z" the same reading in
    UTC and "1970-01-0DT00:00:00+01:00" the same reading one hour ahead of
    UTC; anything else does not parse. *)
Definition hour : Z := 3600000000000.

Definition plus_one : tzinfo := {| tzname := "+01:00"; utcoffset := fun _ => hour |}.

Definition clock (s : string) : option Timestamp :=
  if String.prefix "1970-01-0" s then
    match String.get 9 s with
    | Some c =>
        let d := Z.of_nat (Ascii.nat_of_ascii c) - 48 in
        let rest := String.substring 10 (String.length s - 10) s in
        if bool_decide (1 <= d <= 9) then
          if String.eqb rest "" then
            Some {| value := (d - 1) * day; tz := None |}
          else if String.eqb rest "T00:00:00Z" then
            Some {| value := (d - 1) * day; tz := Some UTC |}
          else if String.eqb rest "T00:00:00+01:00" then
            Some {| value := (d - 1) * day - hour; tz := Some plus_one |}
          else None
        else None
    | None => None
    end
  else None.

(** The engine keeps one percent of the price range around the bars. *)
Definition engine_ylim (data : DataFrame) (ms : list Marker) : Q * Q :=
  let r := (High_max data - Low_min data)%Q in
  ((Low_min data - r * 0.01)%Q, (High_max data + r * 0.01)%Q).

Definition leg (t : string) (at_ : string) (p : Q) : Leg :=
  {| executed_at := Some at_; leg_type := Some t; price := Some p |}.

(** The horizontal offsets of the markers of a figure from position [idx],
    and their vertical places, as reduced fractions. *)
Definition offsets (idx : Z) (fig : Figure) : list Q :=
  map (λ m, Qred (x_pos m - inject_Z idx)) (markers fig).

Definition heights (fig : Figure) : list Q :=
  map (λ m, Qred (y_pos m)) (markers fig).

(** The frame every request of the examples is served from. *)
Definition fetch_daily (ticker : string) (start_date end_date : option string)
    (interval : string) : DataFrame + string :=
  inl daily.

(** A request for the hourly chart of a long trade. *)
Definition hourly_request : Query :=
  {| q_ticker := Some "AAPL"; q_interval := Some "1h";
     q_from := Some "1970-01-03"; q_to := Some "1970-01-05";
     q_entry := Some 100%Q; q_exit := Some 110%Q;
     q_direction := Some "LONG"; q_legs := Some [] |}.

(** A lookup that finds no position, which pandas reports as -1. *)
Definition no_position (ix : DatetimeIndex) (ts : Timestamp) : option Z :=
  Some (-1).

End Example.

(** ** Python strings and datetimes, as the data fetchers use them *)

Module Py.

(** [s.replace(old, new)] for a non-empty [old]: the occurrences of [old]
    are taken from left to right, without overlap.  [skip] counts the
    characters of an occurrence still to be passed over. *)
Fixpoint replace_from (old new : string) (skip : nat) (s : string) : string :=
  match s with
  | EmptyString => EmptyString
  | String c rest =>
      match skip with
      | S k => replace_from old new k rest
      | O =>
          if String.prefix old s
          then new +:+ replace_from old new (String.length old - 1) rest
          else String c (replace_from old new 0 rest)
      end
  end.

Definition replace (old new : string) (s : string) : string :=
  replace_from old new 0 s.

(** [c in s] *)
Fixpoint has_char (c : ascii) (s : string) : bool :=
  match s with
  | EmptyString => false
  | String d rest => if Ascii.eqb c d then true else has_char c rest
  end.

(** A [datetime]: microseconds since the epoch on its own wall clock, and
    its UTC offset when it is aware. *)
Record datetime := { micros : Z; utcoff : option Z }.

(** [datetime.now()] gives a naive datetime. *)
Definition naive (t : Z) : datetime := {| micros := t; utcoff := None |}.

(** [timedelta(days=n)], [timedelta(hours=n)], [timedelta(seconds=n)] *)
Definition days (n : Z) : Z := n * 86400000000.

Definition hours (n : Z) : Z := n * 3600000000.

Definition seconds (n : Z) : Z := n * 1000000.

(** [datetime.min] and [datetime.max], the first microsecond of year 1 and
    the last one of year 9999, counted from the epoch. *)
Definition datetime_min : Z := -62135596800000000.

Definition datetime_max : Z := 253402300799999999.

(** The readings a [datetime] can hold. *)
Definition in_range (d : datetime) : Prop :=
  datetime_min <= micros d <= datetime_max.

(** [d + delta] and [d - delta] where the result is a [datetime], that is,
    [in_range].  Outside that range Python raises OverflowError; these two
    functions give the reading all the same, and the properties that rest
    on them say for which dates they hold. *)
Definition plus (d : datetime) (delta : Z) : datetime :=
  {| micros := micros d + delta; utcoff := utcoff d |}.

Definition minus (d : datetime) (delta : Z) : datetime :=
  {| micros := micros d - delta; utcoff := utcoff d |}.

(** [a > b]; [None] is the TypeError of comparing a naive with an aware
    datetime. *)
Definition gt (a b : datetime) : option bool :=
  match utcoff a, utcoff b with
  | None, None => Some (micros b <? micros a)
  | Some oa, Some ob => Some (micros b - ob <? micros a - oa)
  | _, _ => None
  end.

Definition naive_aware_error : string :=
  "can't compare offset-naive and offset-aware datetimes".

Definition none_replace_error : string :=
  "'NoneType' object has no attribute 'replace'".

End Py.

(** ** scripts/chart-server.py: the data *)

Module ServerData.
Import Pandas Py.

(** One cached candle, a JSON object of the [chart_cache] table. *)
Record Candle := {
  c_time : string;
  c_open : Q;
  c_high : Q;
  c_low : Q;
  c_close : Q;
  c_volume : Q
}.

Section Fetch.

(** The three readings of [datetime.now()] in [fetch_data]: lines 123, 126
    or 128, and 153. *)
Variable now_entry : Z.

Variable now_exit : Z.

Variable now : Z.

(** [datetime.fromisoformat(s)]: the datetime, or the message of its
    ValueError. *)
Variable fromisoformat : string -> datetime + string.

(** [d.isoformat()] and [d.strftime('%Y-%m-%d')] *)
Variable isoformat : datetime -> string.

Variable strftime : datetime -> string.

(** The module-level [supabase] client, [None] when it is not configured.
    The client answers the query of lines 56-64 for a ticker, an interval
    and the two bounds: the candles of the row ([None] when the row holds
    none), or the message of the exception it raises. *)
Variable supabase : option (string -> string -> string -> string
                            -> option (list Candle) + string).

(** [pd.to_datetime(df['time'])]; [None] when it raises. *)
Variable to_datetime : list string -> option DatetimeIndex.

(** [yf.download(ticker, start=, end=, interval=, progress=False)]: the
    frame, or the message of the exception it raises. *)
Variable yf_download : string -> string -> string -> string -> DataFrame + string.

(** Lines 40-43: seconds before and after, by interval. *)
Definition CACHE_PADDING : gmap string (Z * Z) :=
  <["5m" := (24 * 60 * 60, 2 * 60 * 60)]>
    (<["1h" := (2 * 24 * 60 * 60, 2 * 24 * 60 * 60)]> ∅).

(** Lines 71-80: the frame of the candles, indexed by their times. *)
Definition frame_of_candles (ix : DatetimeIndex) (candles : list Candle) : DataFrame :=
  {| frame_tz := index_tz ix;
     rows := zip_with
               (fun t c => {| time := t; Open := c_open c; High := c_high c;
                              Low := c_low c; Close := c_close c;
                              Volume := c_volume c |})
               (index_values ix) candles |}.

(** Lines 46-86. *)
Definition fetch_from_cache (ticker interval : string)
    (entry_date exit_date : datetime) : option DataFrame :=
  match supabase, CACHE_PADDING !! interval with
  | Some table, Some padding =>
      let start_date := minus entry_date (seconds (fst padding)) in
      let end_date := plus exit_date (seconds (snd padding)) in
      match table ticker interval (isoformat start_date) (isoformat end_date) with
      | inl (Some (c :: cs)) =>
          match to_datetime (map c_time (c :: cs)) with
          | Some ix => Some (frame_of_candles ix (c :: cs))
          | None => None
          end
      | inl (Some []) => None
      | inl None => None
      | inr e => None
      end
  | _, _ => None
  end.

(** [s.replace('Z', '+00:00').replace('+00:00', '')] *)
Definition strip_utc (s : string) : string :=
  replace "+00:00" "" (replace "Z" "+00:00" s).

(** Lines 120-123. *)
Definition entry_date_of (start_date : option string) : datetime :=
  match start_date with
  | Some s =>
      match fromisoformat (strip_utc s) with
      | inl d => d
      | inr _ => naive (now_entry - days 60)
      end
  | None => naive (now_entry - days 60)
  end.

(** Lines 125-128; an empty string is false in [if end_date]. *)
Definition exit_date_of (end_date : option string) : datetime :=
  match end_date with
  | Some s =>
      if String.eqb s "" then naive now_exit
      else
        match fromisoformat (strip_utc s) with
        | inl d => d
        | inr _ => naive now_exit
        end
  | None => naive now_exit
  end.

(** Lines 140-150: the display padding. *)
Definition padded (interval : string) (entry_date exit_date : datetime)
  : datetime * datetime :=
  if String.eqb interval "1d" then
    (minus entry_date (days 30), plus exit_date (days 10))
  else if String.eqb interval "1h" then
    (minus entry_date (days 5), plus exit_date (days 3))
  else
    (minus entry_date (hours 4), plus exit_date (hours 2)).

(** Lines 153-163: no date after [now]; the TypeError of a comparison is
    not caught. *)
Definition clamped (interval : string) (start end_ : datetime)
  : datetime * datetime + string :=
  match gt end_ (naive now) with
  | None => inr naive_aware_error
  | Some end_late =>
      let end_ := if end_late then naive now else end_ in
      match gt start (naive now) with
      | None => inr naive_aware_error
      | Some start_late =>
          let start :=
            if start_late then
              if String.eqb interval "1d" then naive (now - days 60)
              else if String.eqb interval "1h" then naive (now - days 10)
              else naive (now - days 3)
            else start in
          inl (start, end_)
      end
  end.

(** Line 165. *)
Definition yf_interval (interval : string) : string :=
  default "1d"
    ((<["1d" := "1d"]> (<["1h" := "1h"]> (<["5m" := "5m"]> ∅)) : gmap string string)
       !! interval).

(** Lines 139-163: the window asked of Yahoo Finance. *)
Definition window (interval : string) (entry_date exit_date : datetime)
  : datetime * datetime + string :=
  let '(start, end_) := padded interval entry_date exit_date in
  clamped interval start end_.

(** Every date lines 139-163 can compute from [entry_date] and [exit_date]
    is a [datetime]: the two dates, their padded values, the clock and the
    earliest fallback.  No OverflowError is raised then. *)
Definition no_overflow (interval : string) (entry_date exit_date : datetime)
  : Prop :=
  in_range entry_date /\ in_range exit_date /\
  in_range (fst (padded interval entry_date exit_date)) /\
  in_range (snd (padded interval entry_date exit_date)) /\
  in_range (naive now) /\ in_range (naive (now - days 60)).

(** Lines 118-179.  The flattening of the column index is not modelled. *)
Definition fetch_data (ticker : string) (start_date end_date : option string)
    (interval : string) : DataFrame + string :=
  let entry_date := entry_date_of start_date in
  let exit_date := exit_date_of end_date in
  let cached_data :=
    if bool_decide (interval ∈ ["5m"; "1h"]) then
      match fetch_from_cache ticker interval entry_date exit_date with
      | Some df => if empty df then None else Some df
      | None => None
      end
    else None in
  match cached_data with
  | Some df => inl df
  | None =>
      match window interval entry_date exit_date with
      | inr e => inr e
      | inl (start, end_) =>
          yf_download ticker (strftime start) (strftime end_) (yf_interval interval)
      end
  end.

End Fetch.

End ServerData.

(** ** api/chart-image/index.py: the data *)

Module ImageData.
Import Pandas Py.

Section Fetch.

(** The reading of [datetime.now()] at line 80. *)
Variable now : Z.

Variable fromisoformat : string -> datetime + string.

Variable strftime : datetime -> string.

Variable yf_download : string -> string -> string -> string -> DataFrame + string.

(** Lines 82-91. *)
Definition padded (interval : string) (start end_ : datetime)
  : datetime * datetime :=
  if String.eqb interval "1d" then
    (minus start (days 30), plus end_ (days 5))
  else if String.eqb interval "1h" then
    (minus start (days 5), plus end_ (days 1))
  else
    (minus start (days 1), plus end_ (days 1)).

(** Line 94. *)
Definition yf_interval (interval : string) : string :=
  default "1d"
    ((<["1d" := "1d"]> (<["1h" := "1h"]> (<["5m" := "5m"]> ∅)) : gmap string string)
       !! interval).

(** Lines 76-104.  Nothing is caught: a missing [start_date] is the
    AttributeError of [None.replace], a date that does not parse the
    ValueError of [fromisoformat]. *)
Definition fetch_data (ticker : string) (start_date end_date : option string)
    (interval : string) : DataFrame + string :=
  match start_date with
  | None => inr none_replace_error
  | Some s =>
      match fromisoformat (replace "Z" "+00:00" s) with
      | inr e => inr e
      | inl start =>
          let end_parsed :=
            match end_date with
            | Some e =>
                if String.eqb e "" then inl (naive now)
                else fromisoformat (replace "Z" "+00:00" e)
            | None => inl (naive now)
            end in
          match end_parsed with
          | inr e => inr e
          | inl end_ =>
              let '(start, end_) := padded interval start end_ in
              yf_download ticker (strftime start) (strftime end_)
                (yf_interval interval)
          end
      end
  end.

End Fetch.

End ImageData.

(** ** Notions used to state further properties *)

(** A leg with another price, or none. *)
Definition reprice (f : Leg -> option Q) (leg : Leg) : Leg :=
  {| executed_at := executed_at leg; leg_type := leg_type leg; price := f leg |}.

(** Every bar has its low at or under its high. *)
Definition low_under_high (data : Pandas.DataFrame) : Prop :=
  Forall (fun b => (Pandas.Low b <= Pandas.High b)%Q) (Pandas.rows data).

(** ** Instances to evaluate the data fetchers on *)

Module DataExample.
Import Pandas Py.

(** Reads the dates of [Example.clock]. *)
Definition fromisoformat (s : string) : datetime + string :=
  match Example.clock s with
  | Some ts =>
      match tz ts with
      | None => inl {| micros := value ts / 1000; utcoff := None |}
      | Some z =>
          inl {| micros := (value ts + utcoffset z (value ts)) / 1000;
                 utcoff := Some (utcoffset z (value ts) / 1000) |}
      end
  | None => inr "Invalid isoformat string"
  end.

(** A stand-in for the date string: one "d" for every day since the
    epoch. *)
Definition strftime (d : datetime) : string :=
  String.concat "" (replicate (Z.to_nat (micros d / 86400000000)) "d").

(** Yahoo Finance always answers with the five bars. *)
Definition yf_download (ticker start end_ interval : string) : DataFrame + string :=
  inl Example.daily.

(** A configured cache whose every row holds two candles, and a reading of
    their times. *)
Definition candles : list ServerData.Candle :=
  [ {| ServerData.c_time := "1970-01-03T00:00:00Z"; ServerData.c_open := 105;
       ServerData.c_high := 108; ServerData.c_low := 101;
       ServerData.c_close := 103; ServerData.c_volume := 1000 |};
    {| ServerData.c_time := "1970-01-04T00:00:00Z"; ServerData.c_open := 103;
       ServerData.c_high := 110; ServerData.c_low := 102;
       ServerData.c_close := 109; ServerData.c_volume := 1000 |} ].

Definition supabase : option (string -> string -> string -> string
                              -> option (list ServerData.Candle) + string) :=
  Some (fun ticker interval start_date end_date => inl (Some candles)).

Definition to_datetime (times : list string) : option DatetimeIndex :=
  ts ← mapM Example.clock times;
  Some {| index_tz := Some UTC; index_values := map value ts |}.

(** The readings of the clock: 1970-01-10, at midnight. *)
Definition now : Z := 9 * 86400000000.

(** [fetch_data] of chart-server.py and of index.py on these instances. *)
Definition server_fetch : string -> option string -> option string -> string
                          -> DataFrame + string :=
  ServerData.fetch_data now now now fromisoformat strftime strftime supabase
    to_datetime yf_download.


(** chart-server.py on the five bars, for a long trade entered at 100. *)
Definition server_chart (legs : list Leg) : result :=
  ChartServer.generate_chart Example.clock nearest Example.engine_ylim
    "AAPL" Example.daily legs 100 None "LONG" "1d".

(** The query without any parameter. *)
Definition empty_query : Query :=
  {| q_ticker := None; q_interval := None; q_from := None; q_to := None;
     q_entry := None; q_exit := None; q_direction := None; q_legs := None |}.

End DataExample.

(** * Properties *)

(** ** Comparisons and series *)

Lemma Qlt_bool_iff (a b : Q) : Qlt_bool a b = true <-> (a < b)%Q.
Proof.
  unfold Qlt_bool. rewrite negb_true_iff.
  split.
  - intros H. apply Qnot_le_lt. intros Hle.
    apply Qle_bool_iff in Hle. congruence.
  - intros Hlt. destruct (Qle_bool b a) eqn:E; [|reflexivity].
    apply Qle_bool_iff in E. exfalso. exact (Qlt_not_le _ _ Hlt E).
Qed.

Lemma Qgt_bool_iff (a b : Q) : Qgt_bool a b = true <-> (b < a)%Q.
Proof. apply Qlt_bool_iff. Qed.

Lemma truthy_iff (x : Q) : truthy x = true <-> ~ (x == 0)%Q.
Proof.
  unfold truthy. rewrite negb_true_iff. split.
  - intros H. apply Qeq_bool_neq. exact H.
  - intros H. destruct (Qeq_bool x 0) eqn:E; [|reflexivity].
    apply Qeq_bool_iff in E. contradiction.
Qed.

Lemma fold_Qmax_ge (xs : list Q) (x : Q) :
  (x <= fold_left Qmax xs x)%Q /\ Forall (fun y => (y <= fold_left Qmax xs x)%Q) xs.
Proof.
  revert x. induction xs as [|y ys IH]; intros x; simpl.
  - split; [apply Qle_refl | constructor].
  - destruct (IH (Qmax x y)) as [H1 H2]. split.
    + eapply Qle_trans; [apply Q.le_max_l | exact H1].
    + constructor; [|exact H2].
      eapply Qle_trans; [apply Q.le_max_r | exact H1].
Qed.

Lemma fold_Qmin_le (xs : list Q) (x : Q) :
  (fold_left Qmin xs x <= x)%Q /\ Forall (fun y => (fold_left Qmin xs x <= y)%Q) xs.
Proof.
  revert x. induction xs as [|y ys IH]; intros x; simpl.
  - split; [apply Qle_refl | constructor].
  - destruct (IH (Qmin x y)) as [H1 H2]. split.
    + eapply Qle_trans; [exact H1 | apply Q.le_min_l].
    + constructor; [|exact H2].
      eapply Qle_trans; [exact H1 | apply Q.le_min_r].
Qed.

(** [data['High'].max()] bounds the high of every bar, [data['Low'].min()]
    the low of every bar. *)
Lemma High_max_ge (data : Pandas.DataFrame) (b : Pandas.Bar) :
  b ∈ Pandas.rows data -> (Pandas.High b <= Pandas.High_max data)%Q.
Proof.
  unfold Pandas.High_max. destruct (Pandas.rows data) as [|b0 bs]; intros Hin.
  - inversion Hin.
  - simpl. destruct (fold_Qmax_ge (map Pandas.High bs) (Pandas.High b0)) as [H1 H2].
    apply elem_of_cons in Hin as [->|Hin]; [exact H1|].
    rewrite Forall_forall in H2. apply H2.
    apply list_elem_of_fmap. exists b. split; [reflexivity | exact Hin].
Qed.

Lemma Low_min_le (data : Pandas.DataFrame) (b : Pandas.Bar) :
  b ∈ Pandas.rows data -> (Pandas.Low_min data <= Pandas.Low b)%Q.
Proof.
  unfold Pandas.Low_min. destruct (Pandas.rows data) as [|b0 bs]; intros Hin.
  - inversion Hin.
  - simpl. destruct (fold_Qmin_le (map Pandas.Low bs) (Pandas.Low b0)) as [H1 H2].
    apply elem_of_cons in Hin as [->|Hin]; [exact H1|].
    rewrite Forall_forall in H2. apply H2.
    apply list_elem_of_fmap. exists b. split; [reflexivity | exact Hin].
Qed.

(** Both are the high, or the low, of one of the bars. *)
Lemma fold_Qmax_in (xs : list Q) (x : Q) :
  fold_left Qmax xs x = x \/ fold_left Qmax xs x ∈ xs.
Proof.
  revert x. induction xs as [|y ys IH]; intros x; simpl; [left; reflexivity|].
  destruct (IH (Qmax x y)) as [H|H].
  - rewrite H. unfold Qmax, GenericMinMax.gmax.
    destruct (x ?= y)%Q; [left | right; left | left]; reflexivity.
  - right. right. exact H.
Qed.

Lemma fold_Qmin_in (xs : list Q) (x : Q) :
  fold_left Qmin xs x = x \/ fold_left Qmin xs x ∈ xs.
Proof.
  revert x. induction xs as [|y ys IH]; intros x; simpl; [left; reflexivity|].
  destruct (IH (Qmin x y)) as [H|H].
  - rewrite H. unfold Qmin, GenericMinMax.gmin.
    destruct (x ?= y)%Q; [left | left | right; left]; reflexivity.
  - right. right. exact H.
Qed.

Lemma High_max_attained (data : Pandas.DataFrame) :
  Pandas.rows data <> [] ->
  exists b, b ∈ Pandas.rows data /\ Pandas.High_max data = Pandas.High b.
Proof.
  unfold Pandas.High_max. destruct (Pandas.rows data) as [|b0 bs]; [contradiction|].
  intros _. simpl.
  destruct (fold_Qmax_in (map Pandas.High bs) (Pandas.High b0)) as [H|H].
  - exists b0. split; [left | exact H].
  - apply list_elem_of_fmap in H as (b & Hb & Hin).
    exists b. split; [right; exact Hin | exact Hb].
Qed.

Lemma Low_min_attained (data : Pandas.DataFrame) :
  Pandas.rows data <> [] ->
  exists b, b ∈ Pandas.rows data /\ Pandas.Low_min data = Pandas.Low b.
Proof.
  unfold Pandas.Low_min. destruct (Pandas.rows data) as [|b0 bs]; [contradiction|].
  intros _. simpl.
  destruct (fold_Qmin_in (map Pandas.Low bs) (Pandas.Low b0)) as [H|H].
  - exists b0. split; [left | exact H].
  - apply list_elem_of_fmap in H as (b & Hb & Hin).
    exists b. split; [right; exact Hin | exact Hb].
Qed.

(** ** The marker loop of scripts/chart-server.py *)

Module ServerLoop.
Import Pandas Mpl ChartServer.

Section Loop.

Context (pd_Timestamp : string -> option Timestamp)
        (get_indexer : DatetimeIndex -> Timestamp -> option Z).

Local Abbreviation try_leg := (ChartServer.try_leg pd_Timestamp get_indexer).
Local Abbreviation leg_step := (ChartServer.leg_step pd_Timestamp get_indexer).
Local Abbreviation marker_loop := (ChartServer.marker_loop pd_Timestamp get_indexer).
Local Abbreviation resolve := (ChartServer.resolve pd_Timestamp get_indexer).
Local Abbreviation placed := (ChartServer.placed pd_Timestamp get_indexer).
Local Abbreviation placed_at := (ChartServer.placed_at pd_Timestamp get_indexer).

(** The timezone block never raises. *)
Lemma match_index_tz_total (data : DataFrame) (ts : Timestamp) :
  is_Some (match_index_tz data ts).
Proof.
  unfold match_index_tz, tz_localize_UTC, tz_convert.
  destruct (frame_tz data), (tz ts) eqn:E; simpl; try rewrite E; eauto.
Qed.

Lemma iloc_in_range (data : DataFrame) (idx : Z) :
  0 <= idx < len data -> is_Some (iloc data idx).
Proof.
  unfold len, iloc. intros H. apply lookup_lt_is_Some_2. lia.
Qed.

Lemma resolve_in_range (data : DataFrame) (leg : Leg) (idx : Z) :
  resolve data leg = Some idx -> 0 <= idx < len data.
Proof.
  unfold ChartServer.resolve. intros H.
  destruct (pd_Timestamp _) as [ts|]; simpl in H; [|discriminate].
  destruct (match_index_tz data ts) as [ts'|]; simpl in H; [|discriminate].
  destruct (get_indexer _ ts') as [i|]; simpl in H; [|discriminate].
  case_bool_decide; [|discriminate]. congruence.
Qed.

(** A leg without a position leaves the loop state as it was. *)
Lemma server_leg_step_skip (data : DataFrame) (off : Q) (st : loop_state) (leg : Leg) :
  resolve data leg = None -> leg_step data off st leg = st.
Proof.
  unfold ChartServer.resolve, ChartServer.leg_step, ChartServer.try_leg.
  intros H.
  destruct (pd_Timestamp _) as [ts|]; simpl in *; [|reflexivity].
  destruct (match_index_tz data ts) as [ts'|]; simpl in *; [|reflexivity].
  destruct (get_indexer _ ts') as [i|]; simpl in *; [|reflexivity].
  case_bool_decide; [discriminate | reflexivity].
Qed.

(** A leg with a position adds its marker and bumps the counter there. *)
Lemma server_leg_step_place (data : DataFrame) (off : Q) (st : loop_state)
    (leg : Leg) (idx : Z) :
  resolve data leg = Some idx ->
  exists candle,
    iloc data idx = Some candle /\
    leg_step data off st leg =
      {| used_positions := <[idx := S (count st idx)]> (used_positions st);
         scatter := scatter st ++ [draw off idx candle (count st idx) leg] |}.
Proof.
  intros H. pose proof (resolve_in_range _ _ _ H) as Hr.
  destruct (iloc_in_range data idx Hr) as [candle Hc].
  exists candle. split; [exact Hc|].
  revert H.
  unfold ChartServer.resolve, ChartServer.leg_step, ChartServer.try_leg.
  destruct (pd_Timestamp _) as [ts|]; simpl; [|discriminate].
  destruct (match_index_tz data ts) as [ts'|]; simpl; [|discriminate].
  destruct (get_indexer _ ts') as [i|]; simpl; [|discriminate].
  case_bool_decide; [|discriminate].
  intros [= ->]. rewrite Hc. reflexivity.
Qed.

Lemma server_marker_loop_app (data : DataFrame) (off : Q) (l1 l2 : list Leg)
    (st : loop_state) :
  marker_loop data off (l1 ++ l2) st
  = marker_loop data off l2 (marker_loop data off l1 st).
Proof. unfold ChartServer.marker_loop. apply fold_left_app. Qed.

Lemma server_marker_loop_cons (data : DataFrame) (off : Q) (leg : Leg)
    (legs : list Leg) (st : loop_state) :
  marker_loop data off (leg :: legs) st
  = marker_loop data off legs (leg_step data off st leg).
Proof. reflexivity. Qed.

Lemma placed_cons_None (data : DataFrame) (leg : Leg) (legs : list Leg) :
  resolve data leg = None -> placed data (leg :: legs) = placed data legs.
Proof.
  intros H. unfold ChartServer.placed. rewrite filter_cons_False; [reflexivity|].
  rewrite H. intros [x Hx]. discriminate.
Qed.

Lemma placed_cons_Some (data : DataFrame) (leg : Leg) (legs : list Leg) (idx : Z) :
  resolve data leg = Some idx -> placed data (leg :: legs) = S (placed data legs).
Proof.
  intros H. unfold ChartServer.placed. rewrite filter_cons_True; [reflexivity|].
  rewrite H. eauto.
Qed.

Lemma placed_at_cons (data : DataFrame) (idx : Z) (leg : Leg) (legs : list Leg) :
  placed_at data idx (leg :: legs)
  = ((if decide (resolve data leg = Some idx) then 1 else 0)
     + placed_at data idx legs)%nat.
Proof.
  unfold ChartServer.placed_at. rewrite filter_cons.
  destruct (decide _); reflexivity.
Qed.

(** When every leg falls on [idx], each of them counts. *)
Lemma placed_all_at (data : DataFrame) (idx : Z) (legs : list Leg) :
  Forall (λ l, resolve data l = Some idx) legs ->
  placed data legs = length legs /\ placed_at data idx legs = length legs.
Proof.
  induction 1 as [|leg legs H _ [IH1 IH2]]; [split; reflexivity|].
  split.
  - rewrite (placed_cons_Some data leg legs idx H), IH1. reflexivity.
  - rewrite placed_at_cons, decide_True by exact H. rewrite IH2. reflexivity.
Qed.

(** The loop appends: what is drawn before stays, and one marker is added
    for every leg with a position. *)
Lemma server_marker_loop_scatter (data : DataFrame) (off : Q) (legs : list Leg)
    (st : loop_state) :
  exists ms,
    scatter (marker_loop data off legs st) = scatter st ++ ms /\
    length ms = placed data legs.
Proof.
  revert st. induction legs as [|leg legs IH]; intros st.
  - exists []. split; [simpl; rewrite app_nil_r; reflexivity | reflexivity].
  - rewrite server_marker_loop_cons.
    destruct (resolve data leg) as [idx|] eqn:E.
    + destruct (server_leg_step_place data off st leg idx E) as (candle & _ & ->).
      destruct (IH {| used_positions := <[idx := S (count st idx)]> (used_positions st);
                      scatter := scatter st ++ [draw off idx candle (count st idx) leg] |})
        as (ms & Hms & Hlen).
      exists (draw off idx candle (count st idx) leg :: ms). split.
      * rewrite Hms. simpl. rewrite <- app_assoc. reflexivity.
      * simpl. rewrite Hlen. symmetry. eapply placed_cons_Some. exact E.
    + rewrite (server_leg_step_skip data off st leg E).
      destruct (IH st) as (ms & Hms & Hlen).
      exists ms. split; [exact Hms|].
      rewrite Hlen. symmetry. apply placed_cons_None. exact E.
Qed.

(** The counter of a position is the number of markers drawn there, of
    either side. *)
Lemma server_marker_loop_count (data : DataFrame) (off : Q) (legs : list Leg)
    (st : loop_state) (idx : Z) :
  count (marker_loop data off legs st) idx
  = (count st idx + placed_at data idx legs)%nat.
Proof.
  revert st. induction legs as [|leg legs IH]; intros st.
  - unfold ChartServer.placed_at. simpl. lia.
  - rewrite server_marker_loop_cons, IH, placed_at_cons.
    destruct (resolve data leg) as [j|] eqn:E.
    + destruct (server_leg_step_place data off st leg j E) as (candle & _ & ->).
      unfold count at 1. simpl.
      destruct (decide (Some j = Some idx)) as [[= ->]|Hne].
      * rewrite lookup_insert_eq. simpl. lia.
      * rewrite lookup_insert_ne by congruence. fold (count st idx). lia.
    + rewrite (server_leg_step_skip data off st leg E).
      destruct (decide (None = Some idx)); [discriminate | lia].
Qed.

(** The marker of a leg inside the list: it comes after the markers of the
    legs before it, and its counter is the number of those drawn at the same
    position. *)
Lemma server_marker_loop_nth (data : DataFrame) (off : Q) (pre post : list Leg)
    (leg : Leg) (idx : Z) :
  resolve data leg = Some idx ->
  exists candle,
    iloc data idx = Some candle /\
    scatter (marker_loop data off (pre ++ leg :: post)
               {| used_positions := ∅; scatter := [] |})
      !! placed data pre
    = Some (draw off idx candle (placed_at data idx pre) leg).
Proof.
  intros H.
  set (st0 := {| used_positions := ∅; scatter := [] |}).
  set (st1 := marker_loop data off pre st0).
  destruct (server_leg_step_place data off st1 leg idx H) as (candle & Hc & Hstep).
  exists candle. split; [exact Hc|].
  rewrite server_marker_loop_app, server_marker_loop_cons. fold st1. rewrite Hstep.
  match goal with |- scatter (marker_loop _ _ _ ?st) !! _ = _ =>
    destruct (server_marker_loop_scatter data off post st) as (ms & -> & _) end.
  simpl.
  destruct (server_marker_loop_scatter data off pre st0) as (ms1 & Hms1 & Hlen1).
  fold st1 in Hms1. simpl in Hms1.
  assert (Hk : count st1 idx = placed_at data idx pre).
  { unfold st1. rewrite server_marker_loop_count. unfold count, st0. simpl.
    rewrite lookup_empty. reflexivity. }
  rewrite Hk, Hms1, <- Hlen1.
  rewrite <- app_assoc. rewrite lookup_app_r by lia.
  replace (length ms1 - length ms1)%nat with 0%nat by lia. reflexivity.
Qed.

(** Dropping a leg without a position changes nothing. *)
Lemma server_marker_loop_drop (data : DataFrame) (off : Q) (l1 l2 : list Leg)
    (bad : Leg) (st : loop_state) :
  resolve data bad = None ->
  marker_loop data off (l1 ++ bad :: l2) st = marker_loop data off (l1 ++ l2) st.
Proof.
  intros H. rewrite !server_marker_loop_app, server_marker_loop_cons.
  rewrite server_leg_step_skip by exact H. reflexivity.
Qed.

End Loop.

End ServerLoop.

(** * The style of the two renderers *)

(** chart-server.py hands [mpf.make_mpf_style] keywords it knows. *)
Lemma server_style_accepted :
  exists style, ChartServer.create_custom_style = inl style.
Proof. eexists. vm_compute. reflexivity. Qed.

(** index.py hands it gridwidth as well, which it does not know: the call
    of line 56 raises KeyError. *)
Lemma image_style_raises :
  ChartImage.create_custom_style = inr (Mpf.unrecognized "gridwidth").
Proof. vm_compute. reflexivity. Qed.

(** The text of that exception, as the handler reports it. *)
Lemma image_style_error_text :
  str (Mpf.unrecognized "gridwidth")
  = "'Unrecognized kwarg=" +:+ Mpf.dquote +:+ "gridwidth" +:+ Mpf.dquote +:+ "'".
Proof. reflexivity. Qed.

(** * The renderers, for every parser, lookup and axis range *)

Section Claims.
Import Pandas Mpl.

Context (pd_Timestamp : string -> option Timestamp)
        (get_indexer : DatetimeIndex -> Timestamp -> option Z)
        (get_ylim : DataFrame -> list Marker -> Q * Q).

Local Abbreviation server_chart :=
  (ChartServer.generate_chart pd_Timestamp get_indexer get_ylim).
Local Abbreviation image_chart :=
  (ChartImage.generate_chart pd_Timestamp get_indexer get_ylim).

(** What chart-server.py saves for a frame with at least one bar. *)
Lemma server_chart_eq ticker data legs entry_price exit_price direction interval :
  rows data <> [] ->
  exists fig,
    server_chart ticker data legs entry_price exit_price direction interval = Png fig /\
    markers fig =
      ChartServer.scatter
        (ChartServer.marker_loop pd_Timestamp get_indexer data
           ((High_max data - Low_min data) * 0.04)%Q legs
           {| ChartServer.used_positions := ∅; ChartServer.scatter := [] |}) /\
    ylim fig =
      (Qmin (fst (get_ylim data (markers fig)))
            (Low_min data - (High_max data - Low_min data) * 0.08)%Q,
       Qmax (snd (get_ylim data (markers fig)))
            (High_max data + (High_max data - Low_min data) * 0.08)%Q) /\
    title fig =
      ticker +:+ " - " +:+ default interval (ChartServer.interval_labels !! interval) /\
    hlines fig =
      {| line_y := entry_price; line_color := green |}
        :: exit_line direction entry_price exit_price.
Proof.
  intros Hne. unfold ChartServer.generate_chart, empty.
  destruct (rows data) as [|b bs] eqn:E; [contradiction|].
  destruct (get_ylim _ _) as [y_min y_max] eqn:Ey.
  eexists. split; [reflexivity|]. simpl. rewrite Ey. auto.
Qed.

(** index.py raises on every frame with at least one bar, whatever the other
    arguments are: the style call of line 122 comes before any drawing. *)
Lemma image_chart_raises ticker data legs entry_price exit_price direction :
  rows data <> [] ->
  image_chart ticker data legs entry_price exit_price direction
  = Raise (Mpf.unrecognized "gridwidth").
Proof.
  intros Hne. unfold ChartImage.generate_chart, empty.
  destruct (rows data) as [|b bs] eqn:E; [contradiction|].
  rewrite image_style_raises. reflexivity.
Qed.

(** C1.  On an empty OHLCV series both renderers raise
    ValueError("No data available"), whatever the other arguments are, and
    the request is answered with that error instead of an image.  On a series
    with at least one bar neither takes this branch: chart-server.py returns
    an image, and index.py gets past the check and raises another exception,
    the KeyError of its style call, not this one. *)
Theorem C1_empty_series_raises
    (ticker : string) (index_zone : option tzinfo) (legs : list Leg)
    (entry_price : Q) (exit_price : option Q) (direction interval : string)
    (params : Query) :
  let no_bars := {| frame_tz := index_zone; rows := [] |} in
  server_chart ticker no_bars legs entry_price exit_price direction interval
    = Raise (ValueError "No data available") /\
  image_chart ticker no_bars legs entry_price exit_price direction
    = Raise (ValueError "No data available") /\
  ChartServer.handle_chart_request pd_Timestamp get_indexer get_ylim
    (fun _ _ _ _ => inl no_bars) params = Response500 "No data available" /\
  ChartImage.do_GET pd_Timestamp get_indexer get_ylim
    (fun _ _ _ _ => inl no_bars) params = Response500 "No data available" /\
  forall (b : Bar) (bs : list Bar),
    let some_bars := {| frame_tz := index_zone; rows := b :: bs |} in
    (exists fig, server_chart ticker some_bars legs entry_price exit_price
                   direction interval = Png fig) /\
    image_chart ticker some_bars legs entry_price exit_price direction
      <> Raise (ValueError "No data available") /\
    image_chart ticker some_bars legs entry_price exit_price direction
      = Raise (Mpf.unrecognized "gridwidth").
Proof.
  intros no_bars.
  split; [reflexivity|]. split; [reflexivity|].
  split; [reflexivity|]. split; [reflexivity|].
  intros b bs some_bars.
  assert (Hne : rows some_bars <> []) by discriminate.
  split; [|split].
  - destruct (server_chart_eq ticker some_bars legs entry_price exit_price
                direction interval Hne) as (fig & Hfig & _).
    exists fig. exact Hfig.
  - rewrite (image_chart_raises ticker some_bars legs entry_price exit_price
               direction Hne). discriminate.
  - exact (image_chart_raises ticker some_bars legs entry_price exit_price
             direction Hne).
Qed.

(** In chart-server.py a leg whose timestamp does not parse, or resolves
    outside the frame, has no position. *)
Lemma server_malformed_no_position (data : DataFrame) (leg : Leg) :
  ChartServer.unparseable pd_Timestamp leg \/
  ChartServer.out_of_range pd_Timestamp get_indexer data leg ->
  ChartServer.resolve pd_Timestamp get_indexer data leg = None.
Proof.
  unfold ChartServer.unparseable, ChartServer.out_of_range, ChartServer.resolve.
  intros [H | (ts & ts' & idx & H1 & H2 & H3 & H4)].
  - rewrite H. reflexivity.
  - rewrite H1. simpl. rewrite H2. simpl. rewrite H3. simpl.
    case_bool_decide; [contradiction | reflexivity].
Qed.

(** On a non-empty series chart-server.py skips such a leg: the render
    returns an image, the very image it returns for the list without that
    leg, and that image holds one marker for every remaining leg that has a
    position. *)
Lemma server_malformed_leg_is_skipped
    (ticker : string) (data : DataFrame) (l1 l2 : list Leg) (bad : Leg)
    (entry_price : Q) (exit_price : option Q) (direction interval : string) :
  rows data <> [] ->
  ChartServer.unparseable pd_Timestamp bad \/
  ChartServer.out_of_range pd_Timestamp get_indexer data bad ->
  exists fig,
    server_chart ticker data (l1 ++ bad :: l2) entry_price exit_price
      direction interval = Png fig /\
    server_chart ticker data (l1 ++ l2) entry_price exit_price
      direction interval = Png fig /\
    length (markers fig)
      = ChartServer.placed pd_Timestamp get_indexer data (l1 ++ l2).
Proof.
  intros Hne Hbad.
  apply server_malformed_no_position in Hbad.
  destruct (server_chart_eq ticker data (l1 ++ l2) entry_price exit_price
              direction interval Hne) as (fig & Hfig & Hm & _).
  exists fig. split; [|split; [exact Hfig|]].
  - rewrite <- Hfig. unfold ChartServer.generate_chart.
    rewrite (ServerLoop.server_marker_loop_drop _ _ data _ l1 l2 bad _ Hbad).
    reflexivity.
  - rewrite Hm.
    destruct (ServerLoop.server_marker_loop_scatter pd_Timestamp get_indexer data
                ((High_max data - Low_min data) * 0.04)%Q (l1 ++ l2)
                {| ChartServer.used_positions := ∅; ChartServer.scatter := [] |})
      as (ms & -> & Hlen).
    exact Hlen.
Qed.

(** ** Reference lines *)

(** The exit line is drawn exactly for a present, non-zero exit price. *)
Lemma exit_line_drawn (direction : string) (entry_price : Q) (exit_price : option Q) :
  exit_line direction entry_price exit_price <> [] <->
  exists x, exit_price = Some x /\ ~ (x == 0)%Q.
Proof.
  unfold exit_line. destruct exit_price as [x|].
  - destruct (truthy x) eqn:E.
    + split; [|discriminate]. intros _. exists x. split; [reflexivity|].
      apply truthy_iff. exact E.
    + split; [contradiction|]. intros (y & [= <-] & Hy).
      apply truthy_iff in Hy. congruence.
  - split; [contradiction|]. intros (y & Hy & _). discriminate.
Qed.

(** Its colour: green exactly when the trade made money, where every
    direction other than LONG is read as SHORT; red otherwise. *)
Lemma exit_line_color (direction : string) (entry_price x : Q) :
  ~ (x == 0)%Q ->
  exists c,
    exit_line direction entry_price (Some x) = [ {| line_y := x; line_color := c |} ] /\
    (c = green \/ c = red) /\
    (c = green <->
       (direction = "LONG" /\ (entry_price < x)%Q) \/
       (direction <> "LONG" /\ (x < entry_price)%Q)).
Proof.
  intros Hx. apply truthy_iff in Hx. unfold exit_line. rewrite Hx.
  destruct (String.eqb_spec direction "LONG") as [->|Hd].
  - destruct (Qgt_bool x entry_price) eqn:E; eexists; (split; [reflexivity|]).
    + apply Qgt_bool_iff in E. split; [left; reflexivity|].
      split; [intros _; left; split; [reflexivity | exact E] | reflexivity].
    + split; [right; reflexivity|]. split; [discriminate|].
      intros [[_ H] | [H _]]; [|contradiction].
      apply Qgt_bool_iff in H. congruence.
  - destruct (Qlt_bool x entry_price) eqn:E; eexists; (split; [reflexivity|]).
    + apply Qlt_bool_iff in E. split; [left; reflexivity|].
      split; [intros _; right; split; [exact Hd | exact E] | reflexivity].
    + split; [right; reflexivity|]. split; [discriminate|].
      intros [[H _] | [_ H]]; [contradiction|].
      apply Qlt_bool_iff in H. congruence.
Qed.

(** For a LONG or SHORT trade on a non-empty series, chart-server.py draws
    the entry line at [entry_price] in the fixed green, and after it an exit
    line exactly when [exit_price] is present and not zero; that line lies at
    [exit_price] and is green exactly when (LONG and exit > entry) or (SHORT
    and exit < entry), red otherwise. *)
Lemma server_reference_lines
    (ticker : string) (data : DataFrame) (legs : list Leg)
    (entry_price : Q) (exit_price : option Q) (direction interval : string) :
  rows data <> [] ->
  direction = "LONG" \/ direction = "SHORT" ->
  exists fig exit_lines,
    server_chart ticker data legs entry_price exit_price direction interval = Png fig /\
    hlines fig = {| line_y := entry_price; line_color := green |} :: exit_lines /\
    (exit_lines <> [] <-> exists x, exit_price = Some x /\ ~ (x == 0)%Q) /\
    forall x, exit_price = Some x -> ~ (x == 0)%Q ->
      let profit := (direction = "LONG" /\ (entry_price < x)%Q) \/
                    (direction = "SHORT" /\ (x < entry_price)%Q) in
      exists c,
        exit_lines = [ {| line_y := x; line_color := c |} ] /\
        (c = green <-> profit) /\
        (c = red <-> ~ profit).
Proof.
  intros Hne Hdir.
  destruct (server_chart_eq ticker data legs entry_price exit_price direction
              interval Hne) as (fig & Hfig & _ & _ & _ & Hls).
  exists fig, (exit_line direction entry_price exit_price).
  split; [exact Hfig|]. split; [exact Hls|].
  split; [apply exit_line_drawn|].
  intros x -> Hx profit.
  destruct (exit_line_color direction entry_price x Hx) as (c & Hc & Hgr & Hiff).
  exists c. split; [exact Hc|].
  assert (Hp : c = green <-> profit).
  { rewrite Hiff. unfold profit. destruct Hdir as [->| ->].
    - split; (intros [[Ha Hb]|[Ha Hb]]; [left; split; assumption | congruence]).
    - split; (intros [[Ha Hb]|[Ha Hb]];
              [congruence | right; split; [discriminate || reflexivity | assumption]]). }
  split; [exact Hp|]. split.
  - intros -> Hprofit. apply Hp in Hprofit. discriminate.
  - intros Hn. destruct Hgr as [->| ->]; [|reflexivity].
    exfalso. apply Hn, Hp. reflexivity.
Qed.

(** ** scripts/chart-server.py: where and how a leg is drawn *)

(** The marker of a leg that has a position [idx]: it follows the markers of
    the legs before it in the list, and it is drawn from the candle at [idx]
    with the number of markers already at [idx] as its counter. *)
Lemma server_marker_of_leg
    (ticker : string) (data : DataFrame) (pre post : list Leg) (leg : Leg)
    (idx : Z) (entry_price : Q) (exit_price : option Q)
    (direction interval : string) :
  ChartServer.resolve pd_Timestamp get_indexer data leg = Some idx ->
  exists fig candle,
    server_chart ticker data (pre ++ leg :: post) entry_price exit_price
      direction interval = Png fig /\
    iloc data idx = Some candle /\
    markers fig !! ChartServer.placed pd_Timestamp get_indexer data pre
      = Some (ChartServer.draw ((High_max data - Low_min data) * 0.04)%Q idx candle
                (ChartServer.placed_at pd_Timestamp get_indexer data idx pre) leg).
Proof.
  intros H.
  assert (Hne : rows data <> []).
  { apply ServerLoop.resolve_in_range in H. unfold len in H.
    destruct (rows data); [simpl in H; lia | discriminate]. }
  destruct (server_chart_eq ticker data (pre ++ leg :: post) entry_price
              exit_price direction interval Hne) as (fig & Hfig & Hm & _).
  destruct (ServerLoop.server_marker_loop_nth pd_Timestamp get_indexer data
              ((High_max data - Low_min data) * 0.04)%Q pre post leg idx H)
    as (candle & Hc & Hnth).
  exists fig, candle. split; [exact Hfig|]. split; [exact Hc|].
  rewrite Hm. exact Hnth.
Qed.

(** The counter of a position adds up the markers of both sides. *)
Lemma server_placed_at_both_sides (data : DataFrame) (idx : Z) (legs : list Leg) :
  ChartServer.placed_at pd_Timestamp get_indexer data idx legs
  = (ChartServer.placed_side pd_Timestamp get_indexer data idx true legs
     + ChartServer.placed_side pd_Timestamp get_indexer data idx false legs)%nat.
Proof.
  unfold ChartServer.placed_at, ChartServer.placed_side.
  induction legs as [|leg legs IH]; [reflexivity|].
  rewrite !filter_cons.
  destruct (decide (ChartServer.resolve pd_Timestamp get_indexer data leg = Some idx))
    as [E|E].
  - destruct (ChartServer.is_buy leg) eqn:Eb.
    + rewrite decide_True by auto. rewrite decide_False by (intros [_ ?]; discriminate).
      simpl. rewrite IH. reflexivity.
    + rewrite decide_False by (intros [_ ?]; discriminate). rewrite decide_True by auto.
      simpl. rewrite IH. lia.
  - rewrite !decide_False by (intros [? _]; contradiction). exact IH.
Qed.

Lemma server_is_buy_iff (leg : Leg) :
  ChartServer.is_buy leg = true <->
  leg_type leg = Some "ENTRY" \/ leg_type leg = Some "ADD".
Proof.
  unfold ChartServer.is_buy. destruct (leg_type leg) as [t|].
  - rewrite bool_decide_eq_true. rewrite !elem_of_cons, elem_of_nil.
    split.
    + intros [->|[->|[]]]; auto.
    + intros [[= ->]|[= ->]]; auto.
  - split; [discriminate | intros [?|?]; discriminate].
Qed.

(** Colours by leg type: the four known types, and gray with a "v" marker
    for any other value or a missing key. *)
Lemma server_leg_color (leg : Leg) :
  (leg_type leg = Some "ENTRY" -> ChartServer.leg_color leg = green) /\
  (leg_type leg = Some "ADD" -> ChartServer.leg_color leg = blue) /\
  (leg_type leg = Some "TRIM" -> ChartServer.leg_color leg = amber) /\
  (leg_type leg = Some "EXIT" -> ChartServer.leg_color leg = red) /\
  (leg_type leg ∉ [Some "ENTRY"; Some "ADD"; Some "TRIM"; Some "EXIT"] ->
   ChartServer.leg_color leg = gray /\ ChartServer.is_buy leg = false).
Proof.
  unfold ChartServer.leg_color.
  split; [intros ->; reflexivity|]. split; [intros ->; reflexivity|].
  split; [intros ->; reflexivity|]. split; [intros ->; reflexivity|].
  intros Hun. split.
  - destruct (leg_type leg) as [t|]; [|reflexivity]. simpl.
    unfold ChartServer.colors.
    rewrite !lookup_insert_ne, lookup_empty; [reflexivity| | | |];
      intros <-; apply Hun; set_solver.
  - destruct (ChartServer.is_buy leg) eqn:E; [|reflexivity].
    apply server_is_buy_iff in E. exfalso. apply Hun.
    destruct E as [-> | ->]; set_solver.
Qed.

(** The vertical place of a marker comes from the candle at the position of
    the leg: its low less 4% of the price range for ENTRY and ADD (marker
    "^"), its high plus 4% of the price range for every other leg ("v"). *)
Lemma server_vertical_position
    (ticker : string) (data : DataFrame) (pre post : list Leg) (leg : Leg)
    (idx : Z) (entry_price : Q) (exit_price : option Q)
    (direction interval : string) :
  ChartServer.resolve pd_Timestamp get_indexer data leg = Some idx ->
  exists fig candle m,
    server_chart ticker data (pre ++ leg :: post) entry_price exit_price
      direction interval = Png fig /\
    rows data !! Z.to_nat idx = Some candle /\
    markers fig !! ChartServer.placed pd_Timestamp get_indexer data pre = Some m /\
    (ChartServer.is_buy leg = true ->
     marker m = "^" /\
     y_pos m = (Low candle - (High_max data - Low_min data) * 0.04)%Q) /\
    (ChartServer.is_buy leg = false ->
     marker m = "v" /\
     y_pos m = (High candle + (High_max data - Low_min data) * 0.04)%Q) /\
    color m = ChartServer.leg_color leg.
Proof.
  intros H.
  destruct (server_marker_of_leg ticker data pre post leg idx entry_price
              exit_price direction interval H) as (fig & candle & Hfig & Hc & Hm).
  eexists fig, candle, _. split; [exact Hfig|]. split; [exact Hc|].
  split; [exact Hm|]. unfold ChartServer.draw. simpl.
  split; [intros ->; split; reflexivity|].
  split; [intros ->; split; reflexivity | reflexivity].
Qed.

(** The final range of the price axis contains the padded range of the data
    and the range matplotlib reports. *)
Lemma server_bounds
    (ticker : string) (data : DataFrame) (legs : list Leg)
    (entry_price : Q) (exit_price : option Q) (direction interval : string) :
  rows data <> [] ->
  exists fig,
    server_chart ticker data legs entry_price exit_price direction interval = Png fig /\
    let price_range := (High_max data - Low_min data)%Q in
    let y_min := fst (get_ylim data (markers fig)) in
    let y_max := snd (get_ylim data (markers fig)) in
    (fst (ylim fig) <= Low_min data - 0.08 * price_range)%Q /\
    (High_max data + 0.08 * price_range <= snd (ylim fig))%Q /\
    (fst (ylim fig) <= y_min)%Q /\
    (y_max <= snd (ylim fig))%Q.
Proof.
  intros Hne.
  destruct (server_chart_eq ticker data legs entry_price exit_price direction
              interval Hne) as (fig & Hfig & _ & Hy & _).
  exists fig. split; [exact Hfig|]. rewrite Hy. simpl.
  split; [|split; [|split]].
  - eapply Qle_trans; [apply Q.le_min_r|]. rewrite (Qmult_comm 0.08). apply Qle_refl.
  - eapply Qle_trans; [|apply Q.le_max_r]. rewrite (Qmult_comm 0.08). apply Qle_refl.
  - apply Q.le_min_l.
  - apply Q.le_max_l.
Qed.

(** The title names the interval that was asked for. *)
Lemma server_title
    (ticker : string) (data : DataFrame) (legs : list Leg)
    (entry_price : Q) (exit_price : option Q) (direction interval : string) :
  rows data <> [] ->
  exists fig,
    server_chart ticker data legs entry_price exit_price direction interval = Png fig /\
    (interval = "1d" -> title fig = ticker +:+ " - Daily") /\
    (interval = "1h" -> title fig = ticker +:+ " - Hourly") /\
    (interval = "5m" -> title fig = ticker +:+ " - 5 Min").
Proof.
  intros Hne.
  destruct (server_chart_eq ticker data legs entry_price exit_price direction
              interval Hne) as (fig & Hfig & _ & _ & Ht & _).
  exists fig. split; [exact Hfig|]. rewrite Ht.
  split; [|split]; intros ->; reflexivity.
Qed.

(** The timezone block: an aware index takes the leg to its own zone, a naive
    timestamp being read as UTC first; a naive index strips the zone. *)
Lemma server_match_index_tz (data : DataFrame) (ts : Timestamp) :
  (forall z, frame_tz data = Some z -> tz ts = None ->
     tz_localize_UTC ts = Some {| value := value ts; tz := Some UTC |} /\
     ChartServer.match_index_tz data ts = Some {| value := value ts; tz := Some z |}) /\
  (forall z z', frame_tz data = Some z -> tz ts = Some z' ->
     ChartServer.match_index_tz data ts = Some {| value := value ts; tz := Some z |}) /\
  (frame_tz data = None ->
     ChartServer.match_index_tz data ts = Some (tz_localize_None ts) /\
     tz (tz_localize_None ts) = None).
Proof.
  split; [|split].
  - intros z Hz Hn. unfold ChartServer.match_index_tz, tz_localize_UTC, tz_convert.
    rewrite Hz, Hn. simpl. split; reflexivity.
  - intros z z' Hz Hn. unfold ChartServer.match_index_tz, tz_convert.
    rewrite Hz, Hn. reflexivity.
  - intros Hz. unfold ChartServer.match_index_tz, tz_localize_None. rewrite Hz.
    destruct (tz ts) eqn:E; split; try reflexivity. exact E.
Qed.

(** Against an aware index, a naive timestamp and the same reading written
    in UTC take the same position. *)
Lemma server_naive_as_utc (data : DataFrame) (naive explicit : Leg) (v : Z) (z : tzinfo) :
  frame_tz data = Some z ->
  pd_Timestamp (default "" (executed_at naive)) = Some {| value := v; tz := None |} ->
  pd_Timestamp (default "" (executed_at explicit)) = Some {| value := v; tz := Some UTC |} ->
  ChartServer.resolve pd_Timestamp get_indexer data naive
  = ChartServer.resolve pd_Timestamp get_indexer data explicit.
Proof.
  intros Hz Hn He. unfold ChartServer.resolve. rewrite Hn, He. simpl.
  unfold ChartServer.match_index_tz. rewrite Hz. reflexivity.
Qed.

(** When all legs fall on one position, the i-th of them (from 0) is drawn
    with counter i. *)
Lemma server_same_position_offsets
    (ticker : string) (data : DataFrame) (legs : list Leg) (idx : Z)
    (entry_price : Q) (exit_price : option Q) (direction interval : string)
    (i : nat) (leg : Leg) :
  Forall (λ l, ChartServer.resolve pd_Timestamp get_indexer data l = Some idx) legs ->
  legs !! i = Some leg ->
  exists fig m,
    server_chart ticker data legs entry_price exit_price direction interval = Png fig /\
    markers fig !! i = Some m /\
    x_pos m = (inject_Z idx + ChartServer.x_offset (ChartServer.is_buy leg) i)%Q.
Proof.
  intros Hall Hi.
  assert (Hleg : ChartServer.resolve pd_Timestamp get_indexer data leg = Some idx).
  { rewrite Forall_lookup in Hall. exact (Hall i leg Hi). }
  destruct (ServerLoop.placed_all_at pd_Timestamp get_indexer data idx (take i legs))
    as [Hp Hpa]; [apply Forall_take; exact Hall|].
  assert (Hlen : length (take i legs) = i).
  { apply length_take_le. apply lookup_lt_Some in Hi. lia. }
  destruct (server_marker_of_leg ticker data (take i legs) (drop (S i) legs) leg idx
              entry_price exit_price direction interval Hleg)
    as (fig & candle & Hfig & _ & Hm).
  rewrite (take_drop_middle legs i leg Hi) in Hfig.
  rewrite Hp, Hpa, Hlen in Hm.
  eexists fig, _. split; [exact Hfig|]. split; [exact Hm|]. reflexivity.
Qed.

(** ** scripts/chart-server.py: zone, height, range, colour and title *)

(** C4.  scripts/chart-server.py, for every frame and every leg whose
    timestamp parses to [ts].  Against an index with a zone, a naive [ts] is
    read as UTC and taken to the zone of the index, and an aware [ts] is
    taken to the zone of the index; against an index without a zone the zone
    of [ts] is stripped.  The timestamp so matched is the one looked up in
    the index.  So, against an index with a zone, a naive timestamp and the
    same reading written in UTC resolve to the same position. *)
Theorem C4_server_matches_index_zone
    (data : DataFrame) (leg : Leg) (ts : Timestamp) :
  pd_Timestamp (default "" (executed_at leg)) = Some ts ->
  (forall z, frame_tz data = Some z -> tz ts = None ->
     tz_localize_UTC ts = Some {| value := value ts; tz := Some UTC |} /\
     ChartServer.match_index_tz data ts = Some {| value := value ts; tz := Some z |}) /\
  (forall z z', frame_tz data = Some z -> tz ts = Some z' ->
     ChartServer.match_index_tz data ts = Some {| value := value ts; tz := Some z |}) /\
  (frame_tz data = None ->
     ChartServer.match_index_tz data ts = Some (tz_localize_None ts) /\
     tz (tz_localize_None ts) = None) /\
  (exists matched,
     ChartServer.match_index_tz data ts = Some matched /\
     ChartServer.resolve pd_Timestamp get_indexer data leg
     = (idx ← get_indexer (index data) matched;
        if bool_decide (0 <= idx < len data) then Some idx else None)) /\
  (forall (explicit : Leg) z,
     frame_tz data = Some z -> tz ts = None ->
     pd_Timestamp (default "" (executed_at explicit))
       = Some {| value := value ts; tz := Some UTC |} ->
     ChartServer.resolve pd_Timestamp get_indexer data leg
     = ChartServer.resolve pd_Timestamp get_indexer data explicit).
Proof.
  intros Hts.
  destruct (server_match_index_tz data ts) as (Hnaive & Haware & Hstrip).
  split; [exact Hnaive|]. split; [exact Haware|]. split; [exact Hstrip|].
  split.
  - destruct (ServerLoop.match_index_tz_total data ts) as [matched Hm].
    exists matched. split; [exact Hm|].
    unfold ChartServer.resolve. rewrite Hts. simpl. rewrite Hm. reflexivity.
  - intros explicit z Hz Hn He.
    apply (server_naive_as_utc data leg explicit (value ts) z Hz); [|exact He].
    rewrite Hts. destruct ts as [v t]. simpl in Hn. rewrite Hn. reflexivity.
Qed.

(** C5.  scripts/chart-server.py: the marker of a leg that has a position
    takes its height from the candle at that position, not from the leg: for
    ENTRY and ADD it is "^" at the low of that bar less 4% of the price range
    of the whole series (highest high less lowest low), for every other leg
    "v" at the high of that bar plus the same 4%. *)
Theorem C5_server_marker_on_candle
    (ticker : string) (data : DataFrame) (pre post : list Leg) (leg : Leg)
    (idx : Z) (entry_price : Q) (exit_price : option Q)
    (direction interval : string) :
  ChartServer.resolve pd_Timestamp get_indexer data leg = Some idx ->
  exists fig candle m,
    server_chart ticker data (pre ++ leg :: post) entry_price exit_price
      direction interval = Png fig /\
    rows data !! Z.to_nat idx = Some candle /\
    markers fig !! ChartServer.placed pd_Timestamp get_indexer data pre = Some m /\
    (leg_type leg = Some "ENTRY" \/ leg_type leg = Some "ADD" ->
     marker m = "^" /\
     y_pos m = (Low candle - (High_max data - Low_min data) * 0.04)%Q) /\
    (~ (leg_type leg = Some "ENTRY" \/ leg_type leg = Some "ADD") ->
     marker m = "v" /\
     y_pos m = (High candle + (High_max data - Low_min data) * 0.04)%Q).
Proof.
  intros H.
  destruct (server_vertical_position ticker data pre post leg idx entry_price
              exit_price direction interval H)
    as (fig & candle & m & Hfig & Hc & Hm & Hbuy & Hsell & _).
  exists fig, candle, m. split; [exact Hfig|]. split; [exact Hc|].
  split; [exact Hm|]. split.
  - intros Ht. apply Hbuy. apply server_is_buy_iff. exact Ht.
  - intros Ht. apply Hsell.
    destruct (ChartServer.is_buy leg) eqn:E; [|reflexivity].
    exfalso. apply Ht. apply server_is_buy_iff. exact E.
Qed.

(** C7.  scripts/chart-server.py: on a non-empty series the final range of
    the price axis contains [min Low - 0.08 r, max High + 0.08 r], where r is
    max High - min Low, and it contains the range the engine had chosen: it
    is their union, the engine's range is never shrunk. *)
Theorem C7_server_range_is_widened
    (ticker : string) (data : DataFrame) (legs : list Leg)
    (entry_price : Q) (exit_price : option Q) (direction interval : string) :
  rows data <> [] ->
  exists fig,
    server_chart ticker data legs entry_price exit_price direction interval = Png fig /\
    let price_range := (High_max data - Low_min data)%Q in
    let y_min := fst (get_ylim data (markers fig)) in
    let y_max := snd (get_ylim data (markers fig)) in
    (fst (ylim fig) <= Low_min data - 0.08 * price_range)%Q /\
    (High_max data + 0.08 * price_range <= snd (ylim fig))%Q /\
    (fst (ylim fig) <= y_min)%Q /\
    (y_max <= snd (ylim fig))%Q /\
    ylim fig = (Qmin y_min (Low_min data - price_range * 0.08)%Q,
                Qmax y_max (High_max data + price_range * 0.08)%Q).
Proof.
  intros Hne.
  destruct (server_bounds ticker data legs entry_price exit_price direction
              interval Hne) as (fig & Hfig & H1 & H2 & H3 & H4).
  destruct (server_chart_eq ticker data legs entry_price exit_price direction
              interval Hne) as (fig' & Hfig' & _ & Hy & _).
  rewrite Hfig in Hfig'. injection Hfig' as <-.
  exists fig. split; [exact Hfig|]. simpl.
  split; [exact H1|]. split; [exact H2|]. split; [exact H3|].
  split; [exact H4 | exact Hy].
Qed.

(** C8.  scripts/chart-server.py: the marker of a leg that has a position is
    green for ENTRY, blue for ADD, amber for TRIM and red for EXIT; for any
    other type, and for a leg without a type, the render goes through all
    the same and the marker is a gray "v". *)
Theorem C8_server_colour_by_type
    (ticker : string) (data : DataFrame) (pre post : list Leg) (leg : Leg)
    (idx : Z) (entry_price : Q) (exit_price : option Q)
    (direction interval : string) :
  ChartServer.resolve pd_Timestamp get_indexer data leg = Some idx ->
  exists fig m,
    server_chart ticker data (pre ++ leg :: post) entry_price exit_price
      direction interval = Png fig /\
    markers fig !! ChartServer.placed pd_Timestamp get_indexer data pre = Some m /\
    (leg_type leg = Some "ENTRY" -> color m = green) /\
    (leg_type leg = Some "ADD" -> color m = blue) /\
    (leg_type leg = Some "TRIM" -> color m = amber) /\
    (leg_type leg = Some "EXIT" -> color m = red) /\
    (leg_type leg ∉ [Some "ENTRY"; Some "ADD"; Some "TRIM"; Some "EXIT"] ->
     color m = gray /\ marker m = "v").
Proof.
  intros H.
  destruct (server_vertical_position ticker data pre post leg idx entry_price
              exit_price direction interval H)
    as (fig & candle & m & Hfig & _ & Hm & _ & Hsell & Hcol).
  destruct (server_leg_color leg) as (Hen & Hadd & Htrim & Hexit & Hother).
  exists fig, m. split; [exact Hfig|]. split; [exact Hm|]. rewrite Hcol.
  split; [exact Hen|]. split; [exact Hadd|]. split; [exact Htrim|].
  split; [exact Hexit|].
  intros Hun. destruct (Hother Hun) as [Hgray Hside].
  split; [exact Hgray|]. apply (Hsell Hside).
Qed.

(** C9.  scripts/chart-server.py: on a non-empty series the title is the
    ticker, " - " and the label of the interval asked for: Daily for 1d,
    Hourly for 1h, 5 Min for 5m. *)
Theorem C9_server_title_names_interval
    (ticker : string) (data : DataFrame) (legs : list Leg)
    (entry_price : Q) (exit_price : option Q) (direction interval : string) :
  rows data <> [] ->
  exists fig,
    server_chart ticker data legs entry_price exit_price direction interval = Png fig /\
    (interval = "1d" -> title fig = ticker +:+ " - Daily") /\
    (interval = "1h" -> title fig = ticker +:+ " - Hourly") /\
    (interval = "5m" -> title fig = ticker +:+ " - 5 Min").
Proof.
  intros Hne.
  exact (server_title ticker data legs entry_price exit_price direction interval Hne).
Qed.

(** C10.  In scripts/chart-server.py a leg drawn at position [idx] after
    [k] earlier markers at [idx], buy-side and sell-side counted together in
    input order, is drawn at [idx - 0.15 + 0.15 k] if it is buy-side and at
    [idx + 0.15 + 0.15 k] otherwise; so a buy-side marker that is the second
    marker at its position lies at offset 0, and the offset of a marker moves
    with the number of opposite-side legs before it. *)
Theorem C10_counter_is_shared
    (ticker : string) (data : DataFrame) (pre post : list Leg) (leg : Leg)
    (idx : Z) (entry_price : Q) (exit_price : option Q)
    (direction interval : string) :
  ChartServer.resolve pd_Timestamp get_indexer data leg = Some idx ->
  let k := ChartServer.placed_at pd_Timestamp get_indexer data idx pre in
  let same_side := ChartServer.placed_side pd_Timestamp get_indexer data idx
                     (ChartServer.is_buy leg) pre in
  let other_side := ChartServer.placed_side pd_Timestamp get_indexer data idx
                      (negb (ChartServer.is_buy leg)) pre in
  exists fig m,
    server_chart ticker data (pre ++ leg :: post) entry_price exit_price
      direction interval = Png fig /\
    markers fig !! ChartServer.placed pd_Timestamp get_indexer data pre = Some m /\
    k = (same_side + other_side)%nat /\
    (ChartServer.is_buy leg = true ->
     (x_pos m == inject_Z idx + (-0.15 + 0.15 * inject_Z (Z.of_nat k)))%Q) /\
    (ChartServer.is_buy leg = false ->
     (x_pos m == inject_Z idx + (0.15 + 0.15 * inject_Z (Z.of_nat k)))%Q) /\
    (ChartServer.is_buy leg = true -> k = 1%nat -> (x_pos m == inject_Z idx)%Q).
Proof.
  intros H k same_side other_side.
  destruct (server_marker_of_leg ticker data pre post leg idx entry_price
              exit_price direction interval H) as (fig & candle & Hfig & _ & Hm).
  eexists fig, _. split; [exact Hfig|]. split; [exact Hm|].
  split.
  { unfold k, same_side, other_side. rewrite server_placed_at_both_sides.
    destruct (ChartServer.is_buy leg); simpl; lia. }
  unfold ChartServer.draw, ChartServer.x_offset. simpl. fold k.
  split; [|split].
  - intros ->. ring.
  - intros ->. ring.
  - intros -> ->. simpl. ring.
Qed.

End Claims.

(** * The renderers on the example chart *)

(** The offsets of chart-server.py computed on IEEE doubles agree with the
    rational ones for the first markers of a position. *)
Example binary64_offsets :
  Binary64.x_offset true 0 = (-0.15)%float /\
  Binary64.x_offset true 1 = 0%float /\
  Binary64.x_offset true 2 = 0.15%float /\
  Binary64.x_offset false 0 = 0.15%float /\
  Binary64.x_offset false 1 = 0.3%float.
Proof. repeat split; vm_compute; reflexivity. Qed.

(** The scenario of the specification: five daily bars, an ENTRY at bar 2
    and an EXIT at bar 4 of a long trade from 100 to 110.  chart-server.py
    returns an image with a green exit line and one marker at each bar;
    index.py raises the KeyError of its style call. *)
Example scenario_five_bars :
  let legs := [Example.leg "ENTRY" "1970-01-03" 100; Example.leg "EXIT" "1970-01-05" 110] in
  (exists fig,
     ChartServer.generate_chart Example.clock Pandas.nearest Example.engine_ylim
       "AAPL" Example.daily legs 100 (Some 110%Q) "LONG" "1d" = Png fig /\
     map Mpl.line_color (Mpl.hlines fig) = [green; green] /\
     map (λ m, Qred (Mpl.x_pos m)) (Mpl.markers fig) = [Qred (2 - 0.15); Qred (4 + 0.15)]) /\
  ChartImage.generate_chart Example.clock Pandas.nearest Example.engine_ylim
    "AAPL" Example.daily legs 100 (Some 110%Q) "LONG"
  = Raise (Mpf.unrecognized "gridwidth").
Proof.
  intros legs. split.
  - eexists. split; [vm_compute; reflexivity|]. split; vm_compute; reflexivity.
  - vm_compute. reflexivity.
Qed.

(** A leg whose lookup finds no position is skipped too. *)
Example no_position_is_skipped :
  ChartServer.out_of_range Example.clock Example.no_position Example.daily
    (Example.leg "ENTRY" "1970-01-03" 100) /\
  exists fig,
    ChartServer.generate_chart Example.clock Example.no_position Example.engine_ylim
      "AAPL" Example.daily [Example.leg "ENTRY" "1970-01-03" 100] 100 None "LONG" "1d"
    = Png fig /\
    Mpl.markers fig = [].
Proof.
  split.
  - eexists _, _, _. repeat split; try reflexivity. vm_compute. intros [H _].
    apply H. reflexivity.
  - eexists. split; vm_compute; reflexivity.
Qed.

(** An exit and then an entry on the same bar: the entry is the second
    marker there and sits at offset 0; alone it sits at -0.15. *)
Example server_entry_after_exit :
  exists fig1 fig2,
    ChartServer.generate_chart Example.clock Pandas.nearest Example.engine_ylim
      "AAPL" Example.daily
      [Example.leg "EXIT" "1970-01-03" 107; Example.leg "ENTRY" "1970-01-03" 102]
      100 None "LONG" "1d" = Png fig1 /\
    Example.offsets 2 fig1 = [Qred 0.15; 0%Q] /\
    ChartServer.generate_chart Example.clock Pandas.nearest Example.engine_ylim
      "AAPL" Example.daily [Example.leg "ENTRY" "1970-01-03" 102]
      100 None "LONG" "1d" = Png fig2 /\
    Example.offsets 2 fig2 = [Qred (-0.15)].
Proof.
  eexists _, _. split; [vm_compute; reflexivity|].
  split; [vm_compute; reflexivity|].
  split; [vm_compute; reflexivity|]. vm_compute. reflexivity.
Qed.

(** C3.  scripts/chart-server.py on three buy-side legs that fall on one
    bar: the offsets are -0.15, 0 and +0.15.  They start at -0.15, but each
    further one moves 0.15 to the right, not further left: the second has a
    smaller magnitude than the first, and the third the magnitude of the
    first. *)
Theorem C3_buy_offsets_move_right :
  let legs := [Example.leg "ENTRY" "1970-01-03" 100; Example.leg "ADD" "1970-01-03" 101;
               Example.leg "ADD" "1970-01-03" 102] in
  Forall (λ l, ChartServer.is_buy l = true /\
               ChartServer.resolve Example.clock Pandas.nearest Example.daily l
               = Some 2) legs /\
  exists fig o1 o2 o3,
    ChartServer.generate_chart Example.clock Pandas.nearest Example.engine_ylim
      "AAPL" Example.daily legs 100 None "LONG" "1d" = Png fig /\
    Example.offsets 2 fig = [o1; o2; o3] /\
    (o1 == -0.15)%Q /\ (o2 == 0)%Q /\ (o3 == 0.15)%Q /\
    (o2 - o1 == 0.15)%Q /\ (o3 - o2 == 0.15)%Q /\
    (Qabs o2 < Qabs o1)%Q /\ (Qabs o3 == Qabs o1)%Q.
Proof.
  intros legs. split.
  - repeat constructor.
  - eexists _, _, _, _. split; [vm_compute; reflexivity|].
    split; [vm_compute; reflexivity|].
    repeat split.
Qed.

(** C2.  api/chart-image/index.py on the five bars, with a leg whose
    timestamp does not parse between two legs that are in order: the render
    returns no image.  It raises the KeyError of its style call at line 122,
    before the loop that would skip the leg, and it does so with and without
    that leg.  On the same input chart-server.py skips the leg and returns
    the image of the two other legs. *)
Theorem C2_image_render_raises :
  let bad := Example.leg "ENTRY" "not a date" 101 in
  let l1 := [Example.leg "ENTRY" "1970-01-03" 100] in
  let l2 := [Example.leg "EXIT" "1970-01-05" 110] in
  Pandas.rows Example.daily <> [] /\
  Example.clock "not a date" = None /\
  ChartImage.generate_chart Example.clock Pandas.nearest Example.engine_ylim
    "AAPL" Example.daily (l1 ++ bad :: l2) 100 (Some 110%Q) "LONG"
    = Raise (Mpf.unrecognized "gridwidth") /\
  ChartImage.generate_chart Example.clock Pandas.nearest Example.engine_ylim
    "AAPL" Example.daily (l1 ++ l2) 100 (Some 110%Q) "LONG"
    = Raise (Mpf.unrecognized "gridwidth") /\
  exists fig,
    ChartServer.generate_chart Example.clock Pandas.nearest Example.engine_ylim
      "AAPL" Example.daily (l1 ++ bad :: l2) 100 (Some 110%Q) "LONG" "1d" = Png fig /\
    ChartServer.generate_chart Example.clock Pandas.nearest Example.engine_ylim
      "AAPL" Example.daily (l1 ++ l2) 100 (Some 110%Q) "LONG" "1d" = Png fig /\
    length (Mpl.markers fig) = 2%nat.
Proof.
  intros bad l1 l2.
  split; [discriminate|]. split; [reflexivity|].
  split; [vm_compute; reflexivity|]. split; [vm_compute; reflexivity|].
  eexists. split; [vm_compute; reflexivity|].
  split; vm_compute; reflexivity.
Qed.

(** C6.  api/chart-image/index.py on the five bars, for a long trade from
    100 to 110: no reference line is drawn, since the render raises the
    KeyError of its style call at line 122, before lines 139-158.  On the
    same input chart-server.py draws the entry line at 100 and the exit line
    at 110, both green. *)
Theorem C6_image_draws_no_line :
  ChartImage.generate_chart Example.clock Pandas.nearest Example.engine_ylim
    "AAPL" Example.daily [] 100 (Some 110%Q) "LONG"
    = Raise (Mpf.unrecognized "gridwidth") /\
  ~ (exists fig,
       ChartImage.generate_chart Example.clock Pandas.nearest Example.engine_ylim
         "AAPL" Example.daily [] 100 (Some 110%Q) "LONG" = Png fig) /\
  exists fig,
    ChartServer.generate_chart Example.clock Pandas.nearest Example.engine_ylim
      "AAPL" Example.daily [] 100 (Some 110%Q) "LONG" "1d" = Png fig /\
    Mpl.hlines fig = [ {| Mpl.line_y := 100; Mpl.line_color := green |};
                       {| Mpl.line_y := 110; Mpl.line_color := green |} ].
Proof.
  split; [vm_compute; reflexivity|]. split.
  - intros (fig & H). vm_compute in H. discriminate H.
  - eexists. split; vm_compute; reflexivity.
Qed.

(** ** api/chart-image/index.py on the example chart *)

(** C4 does not hold of index.py.  The frame has its index in UTC and the
    leg a naive timestamp, which chart-server.py resolves to bar 2.  index.py
    resolves nothing: it raises at line 122.  Lines 163-165, which it does
    not reach, strip the zone whatever the index is; they would hand the
    lookup the naive timestamp, and the leg would find no position. *)
Lemma C4_image_resolves_nothing :
  Pandas.frame_tz Example.daily_utc = Some Pandas.UTC /\
  Example.clock "1970-01-03"
    = Some {| Pandas.value := 2 * Example.day; Pandas.tz := None |} /\
  ChartServer.resolve Example.clock Pandas.nearest Example.daily_utc
    (Example.leg "ENTRY" "1970-01-03" 100) = Some 2 /\
  ChartImage.generate_chart Example.clock Pandas.nearest Example.engine_ylim
    "AAPL" Example.daily_utc [Example.leg "ENTRY" "1970-01-03" 100]
    100 None "LONG" = Raise (Mpf.unrecognized "gridwidth") /\
  ~ (exists fig,
       ChartImage.generate_chart Example.clock Pandas.nearest Example.engine_ylim
         "AAPL" Example.daily_utc [Example.leg "ENTRY" "1970-01-03" 100]
         100 None "LONG" = Png fig) /\
  Pandas.tz_localize_None {| Pandas.value := 2 * Example.day; Pandas.tz := None |}
    = {| Pandas.value := 2 * Example.day; Pandas.tz := None |} /\
  ChartImage.try_leg Example.clock Pandas.nearest Example.daily_utc
    (Example.leg "ENTRY" "1970-01-03" 100) = None.
Proof.
  split; [reflexivity|]. split; [reflexivity|]. split; [reflexivity|].
  split; [vm_compute; reflexivity|]. split.
  - intros (fig & H). vm_compute in H. discriminate H.
  - split; reflexivity.
Qed.

(** C5 does not hold of index.py.  On the five bars (price range 20) an
    ENTRY at bar 2 (low 101) with price 104 has no marker at
    101 - 0.04 * 20 = 100.2: the render raises at line 122, and lines
    166-183, which it does not reach, would draw the marker at 104, the price
    of the leg. *)
Lemma C5_image_marker_not_on_candle :
  Example.bars !! 2%nat = Some (Example.bar 2 105 108 101 103) /\
  (Pandas.High_max Example.daily - Pandas.Low_min Example.daily == 20)%Q /\
  ChartImage.generate_chart Example.clock Pandas.nearest Example.engine_ylim
    "AAPL" Example.daily [Example.leg "ENTRY" "1970-01-03" 104]
    100 None "LONG" = Raise (Mpf.unrecognized "gridwidth") /\
  ~ (exists fig m,
       ChartImage.generate_chart Example.clock Pandas.nearest Example.engine_ylim
         "AAPL" Example.daily [Example.leg "ENTRY" "1970-01-03" 104]
         100 None "LONG" = Png fig /\
       m ∈ Mpl.markers fig /\ (Mpl.y_pos m == 101 - 0.04 * 20)%Q) /\
  ChartImage.try_leg Example.clock Pandas.nearest Example.daily
    (Example.leg "ENTRY" "1970-01-03" 104)
    = Some [ {| Mpl.x_pos := 2; Mpl.y_pos := 104; Mpl.marker := "^";
                Mpl.color := green; Mpl.s := 100 |} ] /\
  ~ (104 == 101 - 0.04 * 20)%Q.
Proof.
  split; [reflexivity|]. split; [reflexivity|].
  split; [vm_compute; reflexivity|]. split; [|split].
  - intros (fig & m & H & _). vm_compute in H. discriminate H.
  - vm_compute. reflexivity.
  - discriminate.
Qed.

(** C7 does not hold of index.py.  On the five bars (lows from 98, highs to
    118, range 20) no range of the price axis contains
    [98 - 0.08 * 20, 118 + 0.08 * 20]: the render raises at line 122 and saves
    no figure.  Nothing in index.py sets the range of the axis. *)
Lemma C7_image_saves_no_range :
  (Pandas.Low_min Example.daily == 98)%Q /\
  (Pandas.High_max Example.daily == 118)%Q /\
  ChartImage.generate_chart Example.clock Pandas.nearest Example.engine_ylim
    "AAPL" Example.daily [Example.leg "ENTRY" "1970-01-03" 104]
    100 None "LONG" = Raise (Mpf.unrecognized "gridwidth") /\
  ~ (exists fig,
       ChartImage.generate_chart Example.clock Pandas.nearest Example.engine_ylim
         "AAPL" Example.daily [Example.leg "ENTRY" "1970-01-03" 104]
         100 None "LONG" = Png fig /\
       (fst (Mpl.ylim fig) <= 98 - 0.08 * 20)%Q /\
       (118 + 0.08 * 20 <= snd (Mpl.ylim fig))%Q).
Proof.
  split; [reflexivity|]. split; [reflexivity|].
  split; [vm_compute; reflexivity|].
  intros (fig & H & _). vm_compute in H. discriminate H.
Qed.

(** C8 does not hold of index.py.  A leg of the unknown type HEDGE gets no
    gray marker: the render raises at line 122, and line 172, which it does
    not reach, ends its chain of colours in red, so the marker would be a red
    "v". *)
Lemma C8_image_unknown_type_not_gray :
  ChartImage.generate_chart Example.clock Pandas.nearest Example.engine_ylim
    "AAPL" Example.daily [Example.leg "HEDGE" "1970-01-03" 104]
    100 None "LONG" = Raise (Mpf.unrecognized "gridwidth") /\
  ~ (exists fig m,
       ChartImage.generate_chart Example.clock Pandas.nearest Example.engine_ylim
         "AAPL" Example.daily [Example.leg "HEDGE" "1970-01-03" 104]
         100 None "LONG" = Png fig /\
       m ∈ Mpl.markers fig /\ Mpl.color m = gray) /\
  ChartImage.try_leg Example.clock Pandas.nearest Example.daily
    (Example.leg "HEDGE" "1970-01-03" 104)
    = Some [ {| Mpl.x_pos := 2; Mpl.y_pos := 104; Mpl.marker := "v";
                Mpl.color := red; Mpl.s := 100 |} ] /\
  red <> gray.
Proof.
  split; [vm_compute; reflexivity|]. split; [|split].
  - intros (fig & m & H & _). vm_compute in H. discriminate H.
  - vm_compute. reflexivity.
  - discriminate.
Qed.

(** C9 does not hold of index.py.  A request for the hourly chart gets no
    chart titled "AAPL - Hourly": the render raises at line 122 and the
    handler answers 500.  The [generate_chart] of index.py is not told the
    interval.  chart-server.py answers the same request with that title. *)
Lemma C9_image_request_has_no_title :
  q_interval Example.hourly_request = Some "1h" /\
  ChartImage.generate_chart Example.clock Pandas.nearest Example.engine_ylim
    "AAPL" Example.daily [] 100 (Some 110%Q) "LONG"
    = Raise (Mpf.unrecognized "gridwidth") /\
  ChartImage.do_GET Example.clock Pandas.nearest Example.engine_ylim
    Example.fetch_daily Example.hourly_request
    = Response500 (str (Mpf.unrecognized "gridwidth")) /\
  ~ (exists fig,
       ChartImage.do_GET Example.clock Pandas.nearest Example.engine_ylim
         Example.fetch_daily Example.hourly_request = Response200 fig /\
       Mpl.title fig = "AAPL - Hourly") /\
  exists fig,
    ChartServer.handle_chart_request Example.clock Pandas.nearest
      Example.engine_ylim Example.fetch_daily Example.hourly_request
    = Response200 fig /\
    Mpl.title fig = "AAPL - Hourly".
Proof.
  split; [reflexivity|]. split; [vm_compute; reflexivity|].
  split; [vm_compute; reflexivity|]. split.
  - intros (fig & H & _). vm_compute in H. discriminate H.
  - eexists. split; [vm_compute; reflexivity|]. reflexivity.
Qed.

(** ** Instances of the general theorems *)

Lemma C4_server_matches_index_zone_witness :
  Example.clock (default "" (executed_at (Example.leg "ENTRY" "1970-01-03" 100)))
    = Some {| Pandas.value := 2 * Example.day; Pandas.tz := None |} /\
  ChartServer.match_index_tz Example.daily_utc
    {| Pandas.value := 2 * Example.day; Pandas.tz := None |}
    = Some {| Pandas.value := 2 * Example.day; Pandas.tz := Some Pandas.UTC |} /\
  ChartServer.resolve Example.clock Pandas.nearest Example.daily_utc
    (Example.leg "ENTRY" "1970-01-03" 100)
  = ChartServer.resolve Example.clock Pandas.nearest Example.daily_utc
      (Example.leg "ENTRY" "1970-01-03T00:00:00Z" 100).
Proof.
  assert (Hts : Example.clock
                  (default "" (executed_at (Example.leg "ENTRY" "1970-01-03" 100)))
                = Some {| Pandas.value := 2 * Example.day; Pandas.tz := None |})
    by reflexivity.
  destruct (C4_server_matches_index_zone Example.clock Pandas.nearest
              Example.daily_utc (Example.leg "ENTRY" "1970-01-03" 100)
              {| Pandas.value := 2 * Example.day; Pandas.tz := None |} Hts)
    as (Hnaive & _ & _ & _ & Hsame).
  split; [exact Hts|]. split.
  - exact (proj2 (Hnaive Pandas.UTC eq_refl eq_refl)).
  - exact (Hsame (Example.leg "ENTRY" "1970-01-03T00:00:00Z" 100) Pandas.UTC
             eq_refl eq_refl eq_refl).
Defined.

Lemma C5_server_marker_on_candle_witness :
  ChartServer.resolve Example.clock Pandas.nearest Example.daily
    (Example.leg "ENTRY" "1970-01-03" 104) = Some 2 /\
  exists fig candle m,
    ChartServer.generate_chart Example.clock Pandas.nearest Example.engine_ylim
      "AAPL" Example.daily ([] ++ Example.leg "ENTRY" "1970-01-03" 104 :: [])
      100 None "LONG" "1d" = Png fig /\
    Pandas.rows Example.daily !! Z.to_nat 2 = Some candle /\
    Mpl.markers fig !! ChartServer.placed Example.clock Pandas.nearest
                         Example.daily [] = Some m /\
    (leg_type (Example.leg "ENTRY" "1970-01-03" 104) = Some "ENTRY" \/
     leg_type (Example.leg "ENTRY" "1970-01-03" 104) = Some "ADD" ->
     Mpl.marker m = "^" /\
     Mpl.y_pos m = (Pandas.Low candle
                    - (Pandas.High_max Example.daily - Pandas.Low_min Example.daily)
                      * 0.04)%Q) /\
    (~ (leg_type (Example.leg "ENTRY" "1970-01-03" 104) = Some "ENTRY" \/
        leg_type (Example.leg "ENTRY" "1970-01-03" 104) = Some "ADD") ->
     Mpl.marker m = "v" /\
     Mpl.y_pos m = (Pandas.High candle
                    + (Pandas.High_max Example.daily - Pandas.Low_min Example.daily)
                      * 0.04)%Q).
Proof.
  assert (H : ChartServer.resolve Example.clock Pandas.nearest Example.daily
                (Example.leg "ENTRY" "1970-01-03" 104) = Some 2) by reflexivity.
  split; [exact H|].
  exact (C5_server_marker_on_candle Example.clock Pandas.nearest Example.engine_ylim
           "AAPL" Example.daily [] [] (Example.leg "ENTRY" "1970-01-03" 104) 2
           100 None "LONG" "1d" H).
Defined.

Lemma C7_server_range_is_widened_witness :
  Pandas.rows Example.daily <> [] /\
  exists fig,
    ChartServer.generate_chart Example.clock Pandas.nearest Example.engine_ylim
      "AAPL" Example.daily [Example.leg "ENTRY" "1970-01-03" 104]
      100 None "LONG" "1d" = Png fig /\
    let price_range :=
      (Pandas.High_max Example.daily - Pandas.Low_min Example.daily)%Q in
    let y_min := fst (Example.engine_ylim Example.daily (Mpl.markers fig)) in
    let y_max := snd (Example.engine_ylim Example.daily (Mpl.markers fig)) in
    (fst (Mpl.ylim fig) <= Pandas.Low_min Example.daily - 0.08 * price_range)%Q /\
    (Pandas.High_max Example.daily + 0.08 * price_range <= snd (Mpl.ylim fig))%Q /\
    (fst (Mpl.ylim fig) <= y_min)%Q /\
    (y_max <= snd (Mpl.ylim fig))%Q /\
    Mpl.ylim fig
    = (Qmin y_min (Pandas.Low_min Example.daily - price_range * 0.08)%Q,
       Qmax y_max (Pandas.High_max Example.daily + price_range * 0.08)%Q).
Proof.
  assert (Hne : Pandas.rows Example.daily <> []) by discriminate.
  split; [exact Hne|].
  exact (C7_server_range_is_widened Example.clock Pandas.nearest Example.engine_ylim
           "AAPL" Example.daily [Example.leg "ENTRY" "1970-01-03" 104]
           100 None "LONG" "1d" Hne).
Defined.

Lemma C8_server_colour_by_type_witness :
  ChartServer.resolve Example.clock Pandas.nearest Example.daily
    (Example.leg "HEDGE" "1970-01-03" 104) = Some 2 /\
  (leg_type (Example.leg "HEDGE" "1970-01-03" 104)
     ∉ [Some "ENTRY"; Some "ADD"; Some "TRIM"; Some "EXIT"]) /\
  exists fig m,
    ChartServer.generate_chart Example.clock Pandas.nearest Example.engine_ylim
      "AAPL" Example.daily ([] ++ Example.leg "HEDGE" "1970-01-03" 104 :: [])
      100 None "LONG" "1d" = Png fig /\
    Mpl.markers fig !! ChartServer.placed Example.clock Pandas.nearest
                         Example.daily [] = Some m /\
    Mpl.color m = gray /\ Mpl.marker m = "v".
Proof.
  assert (H : ChartServer.resolve Example.clock Pandas.nearest Example.daily
                (Example.leg "HEDGE" "1970-01-03" 104) = Some 2) by reflexivity.
  assert (Hun : leg_type (Example.leg "HEDGE" "1970-01-03" 104)
                ∉ [Some "ENTRY"; Some "ADD"; Some "TRIM"; Some "EXIT"]).
  { rewrite !elem_of_cons, elem_of_nil. intros [E|[E|[E|[E|[]]]]]; discriminate E. }
  split; [exact H|]. split; [exact Hun|].
  destruct (C8_server_colour_by_type Example.clock Pandas.nearest Example.engine_ylim
              "AAPL" Example.daily [] [] (Example.leg "HEDGE" "1970-01-03" 104) 2
              100 None "LONG" "1d" H)
    as (fig & m & Hfig & Hm & _ & _ & _ & _ & Hother).
  exists fig, m. split; [exact Hfig|]. split; [exact Hm|]. exact (Hother Hun).
Defined.

Lemma C9_server_title_names_interval_witness :
  Pandas.rows Example.daily <> [] /\
  exists fig,
    ChartServer.generate_chart Example.clock Pandas.nearest Example.engine_ylim
      "AAPL" Example.daily [] 100 (Some 110%Q) "LONG" "1h" = Png fig /\
    Mpl.title fig = "AAPL - Hourly".
Proof.
  assert (Hne : Pandas.rows Example.daily <> []) by discriminate.
  split; [exact Hne|].
  destruct (C9_server_title_names_interval Example.clock Pandas.nearest
              Example.engine_ylim "AAPL" Example.daily [] 100 (Some 110%Q)
              "LONG" "1h" Hne) as (fig & Hfig & _ & Hhour & _).
  exists fig. split; [exact Hfig|]. exact (Hhour eq_refl).
Defined.

Lemma C10_counter_is_shared_witness :
  let pre := [Example.leg "EXIT" "1970-01-03" 107] in
  let leg := Example.leg "ENTRY" "1970-01-03" 102 in
  ChartServer.resolve Example.clock Pandas.nearest Example.daily leg = Some 2 /\
  let k := ChartServer.placed_at Example.clock Pandas.nearest Example.daily 2 pre in
  let same_side := ChartServer.placed_side Example.clock Pandas.nearest
                     Example.daily 2 (ChartServer.is_buy leg) pre in
  let other_side := ChartServer.placed_side Example.clock Pandas.nearest
                      Example.daily 2 (negb (ChartServer.is_buy leg)) pre in
  exists fig m,
    ChartServer.generate_chart Example.clock Pandas.nearest Example.engine_ylim
      "AAPL" Example.daily (pre ++ leg :: []) 100 None "LONG" "1d" = Png fig /\
    Mpl.markers fig !! ChartServer.placed Example.clock Pandas.nearest
                         Example.daily pre = Some m /\
    k = (same_side + other_side)%nat /\
    (ChartServer.is_buy leg = true ->
     (Mpl.x_pos m == inject_Z 2 + (-0.15 + 0.15 * inject_Z (Z.of_nat k)))%Q) /\
    (ChartServer.is_buy leg = false ->
     (Mpl.x_pos m == inject_Z 2 + (0.15 + 0.15 * inject_Z (Z.of_nat k)))%Q) /\
    (ChartServer.is_buy leg = true -> k = 1%nat -> (Mpl.x_pos m == inject_Z 2)%Q).
Proof.
  intros pre leg.
  assert (H : ChartServer.resolve Example.clock Pandas.nearest Example.daily leg
              = Some 2) by reflexivity.
  split; [exact H|].
  exact (C10_counter_is_shared Example.clock Pandas.nearest Example.engine_ylim
           "AAPL" Example.daily pre [] leg 2 100 None "LONG" "1d" H).
Defined.

(** * Further properties of the renderers *)

Section Renderers.
Import Pandas Mpl.

Context (pd_Timestamp : string -> option Timestamp)
        (get_indexer : DatetimeIndex -> Timestamp -> option Z)
        (get_ylim : DataFrame -> list Marker -> Q * Q).

Local Abbreviation server_chart :=
  (ChartServer.generate_chart pd_Timestamp get_indexer get_ylim).
Local Abbreviation image_chart :=
  (ChartImage.generate_chart pd_Timestamp get_indexer get_ylim).
Local Abbreviation server_loop :=
  (ChartServer.marker_loop pd_Timestamp get_indexer).

(** Every marker of the chart-server loop hangs on a candle of the frame:
    under its low or over its high, by the marker offset. *)
Lemma server_loop_heights (data : DataFrame) (off : Q) (legs : list Leg)
    (st : ChartServer.loop_state) :
  let on_candle m :=
    exists c, c ∈ rows data /\
      (y_pos m = (Low c - off)%Q \/ y_pos m = (High c + off)%Q) in
  Forall on_candle (ChartServer.scatter st) ->
  Forall on_candle (ChartServer.scatter (server_loop data off legs st)).
Proof.
  intros on_candle. revert st. induction legs as [|leg legs IH]; intros st Hst.
  - exact Hst.
  - rewrite ServerLoop.server_marker_loop_cons. apply IH.
    destruct (ChartServer.resolve pd_Timestamp get_indexer data leg) as [idx|] eqn:E.
    + destruct (ServerLoop.server_leg_step_place pd_Timestamp get_indexer data off
                  st leg idx E) as (candle & Hc & ->).
      simpl. apply Forall_app. split; [exact Hst|].
      constructor; [|constructor].
      exists candle. split; [apply (list_elem_of_lookup_2 _ _ _ Hc)|].
      unfold ChartServer.draw. simpl.
      destruct (ChartServer.is_buy leg); [left | right]; reflexivity.
    + rewrite (ServerLoop.server_leg_step_skip _ _ data off st leg E). exact Hst.
Qed.

(** X1.  scripts/chart-server.py: when every bar has its low at or under
    its high, every marker lies inside the final range of the price axis. *)
Theorem X1_server_markers_inside_range
    (ticker : string) (data : DataFrame) (legs : list Leg)
    (entry_price : Q) (exit_price : option Q) (direction interval : string) :
  rows data <> [] ->
  low_under_high data ->
  exists fig,
    server_chart ticker data legs entry_price exit_price direction interval = Png fig /\
    Forall (fun m => (fst (ylim fig) <= y_pos m)%Q /\ (y_pos m <= snd (ylim fig))%Q)
           (markers fig).
Proof.
  intros Hne Hbars.
  destruct (server_chart_eq pd_Timestamp get_indexer get_ylim ticker data legs
              entry_price exit_price direction interval Hne)
    as (fig & Hfig & Hm & Hy & _).
  exists fig. split; [exact Hfig|].
  pose proof (server_loop_heights data ((High_max data - Low_min data) * 0.04)%Q legs
                {| ChartServer.used_positions := ∅; ChartServer.scatter := [] |}) as Hh.
  simpl in Hh. specialize (Hh (Forall_nil_2 _)). rewrite <- Hm in Hh.
  rewrite Hy. simpl.
  eapply Forall_impl; [exact Hh|]. clear Hh.
  intros m (c & Hc & Hym).
  pose proof (High_max_ge data c Hc) as Hhi.
  pose proof (Low_min_le data c Hc) as Hlo.
  assert (Hlh : (Low c <= High c)%Q).
  { unfold low_under_high in Hbars. rewrite Forall_forall in Hbars. exact (Hbars c Hc). }
  pose proof (Q.le_min_r (fst (get_ylim data (markers fig)))
                (Low_min data - (High_max data - Low_min data) * 0.08)) as Hmin.
  pose proof (Q.le_max_r (snd (get_ylim data (markers fig)))
                (High_max data + (High_max data - Low_min data) * 0.08)) as Hmax.
  destruct Hym as [-> | ->]; split; lra.
Qed.

Lemma server_placed_at_app (data : DataFrame) (idx : Z) (l1 l2 : list Leg) :
  ChartServer.placed_at pd_Timestamp get_indexer data idx (l1 ++ l2)
  = (ChartServer.placed_at pd_Timestamp get_indexer data idx l1
     + ChartServer.placed_at pd_Timestamp get_indexer data idx l2)%nat.
Proof.
  unfold ChartServer.placed_at. rewrite filter_app, length_app. reflexivity.
Qed.

(** X2.  scripts/chart-server.py: two legs of the same side drawn at the
    same position never share a horizontal place; the later leg of the list
    lies to the right of the earlier one. *)
Theorem X2_server_same_side_apart
    (ticker : string) (data : DataFrame) (l1 l2 l3 : list Leg) (a b : Leg)
    (idx : Z) (entry_price : Q) (exit_price : option Q)
    (direction interval : string) :
  ChartServer.resolve pd_Timestamp get_indexer data a = Some idx ->
  ChartServer.resolve pd_Timestamp get_indexer data b = Some idx ->
  ChartServer.is_buy a = ChartServer.is_buy b ->
  exists fig ma mb,
    server_chart ticker data (l1 ++ a :: l2 ++ b :: l3) entry_price exit_price
      direction interval = Png fig /\
    markers fig !! ChartServer.placed pd_Timestamp get_indexer data l1 = Some ma /\
    markers fig !! ChartServer.placed pd_Timestamp get_indexer data (l1 ++ a :: l2)
      = Some mb /\
    (x_pos ma < x_pos mb)%Q.
Proof.
  intros Ha Hb Hside.
  destruct (server_marker_of_leg pd_Timestamp get_indexer get_ylim ticker data l1
              (l2 ++ b :: l3) a idx entry_price exit_price direction interval Ha)
    as (fig & ca & Hfig & _ & Hma).
  destruct (server_marker_of_leg pd_Timestamp get_indexer get_ylim ticker data
              (l1 ++ a :: l2) l3 b idx entry_price exit_price direction interval Hb)
    as (fig' & cb & Hfig' & _ & Hmb).
  replace ((l1 ++ a :: l2) ++ b :: l3) with (l1 ++ a :: l2 ++ b :: l3) in Hfig'
    by (rewrite <- app_assoc; reflexivity).
  rewrite Hfig in Hfig'. injection Hfig' as <-.
  eexists fig, _, _. split; [exact Hfig|]. split; [exact Hma|]. split; [exact Hmb|].
  unfold ChartServer.draw. simpl. rewrite Hside.
  assert (Hk : (Z.of_nat (ChartServer.placed_at pd_Timestamp get_indexer data idx l1)
                < Z.of_nat (ChartServer.placed_at pd_Timestamp get_indexer data idx
                              (l1 ++ a :: l2)))%Z).
  { rewrite server_placed_at_app.
    rewrite (ServerLoop.placed_at_cons pd_Timestamp get_indexer data idx a l2).
    rewrite decide_True by exact Ha. lia. }
  rewrite Zlt_Qlt in Hk.
  unfold ChartServer.x_offset. destruct (ChartServer.is_buy b); lra.
Qed.

(** X3.  scripts/chart-server.py never reads the price of a leg: the image
    is the same whatever the prices of the legs are, or without them. *)
Theorem X3_server_ignores_leg_price
    (ticker : string) (data : DataFrame) (legs : list Leg) (f : Leg -> option Q)
    (entry_price : Q) (exit_price : option Q) (direction interval : string) :
  server_chart ticker data (map (reprice f) legs) entry_price exit_price
    direction interval
  = server_chart ticker data legs entry_price exit_price direction interval.
Proof.
  assert (Hloop : forall off st,
             server_loop data off (map (reprice f) legs) st
             = server_loop data off legs st).
  { intros off. induction legs as [|leg legs IH]; intros st; [reflexivity|].
    change (map (reprice f) (leg :: legs)) with (reprice f leg :: map (reprice f) legs).
    rewrite !ServerLoop.server_marker_loop_cons. rewrite IH. reflexivity. }
  unfold ChartServer.generate_chart. rewrite Hloop. reflexivity.
Qed.

(** X6.  scripts/chart-server.py never draws more markers than there are
    legs. *)
Theorem X6_no_more_markers_than_legs
    (ticker : string) (data : DataFrame) (legs : list Leg)
    (entry_price : Q) (exit_price : option Q) (direction interval : string) :
  rows data <> [] ->
  exists fig,
    server_chart ticker data legs entry_price exit_price direction interval = Png fig /\
    (length (markers fig) <= length legs)%nat.
Proof.
  intros Hne.
  destruct (server_chart_eq pd_Timestamp get_indexer get_ylim ticker data legs
              entry_price exit_price direction interval Hne) as (fig & Hfig & Hm & _).
  exists fig. split; [exact Hfig|].
  rewrite Hm.
  destruct (ServerLoop.server_marker_loop_scatter pd_Timestamp get_indexer data
              ((High_max data - Low_min data) * 0.04)%Q legs
              {| ChartServer.used_positions := ∅; ChartServer.scatter := [] |})
    as (ms & -> & Hlen).
  simpl. rewrite Hlen. unfold ChartServer.placed. apply length_filter.
Qed.


(** X19.  api/chart-image/index.py: [generate_chart] returns an image for no
    input at all.  It raises ValueError("No data available") on an empty
    frame and the KeyError of the gridwidth keyword on every other frame,
    whatever the legs, the prices and the direction are. *)
Theorem X19_image_never_renders
    (ticker : string) (data : DataFrame) (legs : list Leg)
    (entry_price : Q) (exit_price : option Q) (direction : string) :
  exists e,
    image_chart ticker data legs entry_price exit_price direction = Raise e /\
    (rows data = [] -> e = ValueError "No data available") /\
    (rows data <> [] -> e = Mpf.unrecognized "gridwidth") /\
    forall fig,
      image_chart ticker data legs entry_price exit_price direction <> Png fig.
Proof.
  destruct (rows data) as [|b bs] eqn:E.
  - exists (ValueError "No data available").
    assert (H : image_chart ticker data legs entry_price exit_price direction
                = Raise (ValueError "No data available")).
    { unfold ChartImage.generate_chart, empty. rewrite E. reflexivity. }
    split; [exact H|]. split; [reflexivity|].
    split; [intros Hne; contradiction|].
    intros fig. rewrite H. discriminate.
  - assert (Hne : rows data <> []) by (rewrite E; discriminate).
    exists (Mpf.unrecognized "gridwidth").
    pose proof (image_chart_raises pd_Timestamp get_indexer get_ylim ticker data
                  legs entry_price exit_price direction Hne) as H.
    split; [exact H|]. split; [intros Hr; discriminate Hr|].
    split; [reflexivity|].
    intros fig. rewrite H. discriminate.
Qed.

(** X8.  scripts/chart-server.py: a request without any parameter asks for
    the daily AAPL data without dates and, on a non-empty frame, is answered
    with the chart titled "AAPL - Daily" that holds the entry line at 0 and
    nothing else. *)
Theorem X8_server_request_without_parameters
    (fetch_data : string -> option string -> option string -> string
                  -> DataFrame + string)
    (data : DataFrame) :
  fetch_data "AAPL" None None "1d" = inl data ->
  rows data <> [] ->
  exists fig,
    ChartServer.handle_chart_request pd_Timestamp get_indexer get_ylim fetch_data
      DataExample.empty_query = Response200 fig /\
    title fig = "AAPL - Daily" /\
    hlines fig = [ {| line_y := 0; line_color := green |} ] /\
    markers fig = [].
Proof.
  intros Hfetch Hne.
  unfold ChartServer.handle_chart_request. simpl. rewrite Hfetch.
  destruct (server_chart_eq pd_Timestamp get_indexer get_ylim "AAPL" data []
              0%Q None "LONG" "1d" Hne) as (fig & -> & Hm & _ & Ht & Hl).
  exists fig. split; [reflexivity|]. split; [exact Ht|]. split; [exact Hl|]. exact Hm.
Qed.

End Renderers.

(** * The data fetchers *)

(** ** Dates as strings *)

(** [replace] leaves alone a stretch in which the first character of [old]
    does not occur. *)
Lemma replace_app (o : ascii) (old' new s t : string) :
  Py.has_char o s = false ->
  Py.replace (String o old') new (s +:+ t) = s +:+ Py.replace (String o old') new t.
Proof.
  unfold Py.replace. induction s as [|c s IH]; intros H; [reflexivity|].
  simpl in H. destruct (Ascii.eqb o c) eqn:E; [discriminate|].
  apply Ascii.eqb_neq in E.
  change (String c s +:+ t) with (String c (s +:+ t)).
  cbn [Py.replace_from]. cbn [String.prefix].
  destruct (ascii_dec o c) as [Heq|_]; [contradiction|].
  rewrite (IH H). reflexivity.
Qed.

Lemma append_empty_r (s : string) : s +:+ "" = s.
Proof.
  induction s as [|c s IH]; [reflexivity|].
  change (String c (s +:+ "") = String c s). rewrite IH. reflexivity.
Qed.

(** X9.  A date without "Z" and "+" reaches [fromisoformat] as it is, and
    with a trailing "Z" or "+00:00" it reaches it without that suffix:
    chart-server.py reads UTC dates as naive ones.  index.py turns the "Z"
    into "+00:00" and keeps it. *)
Theorem X9_utc_suffix_is_stripped (s : string) :
  Py.has_char "Z" s = false ->
  Py.has_char "+" s = false ->
  ServerData.strip_utc s = s /\
  ServerData.strip_utc (s +:+ "Z") = s /\
  ServerData.strip_utc (s +:+ "+00:00") = s /\
  Py.replace "Z" "+00:00" (s +:+ "Z") = s +:+ "+00:00".
Proof.
  intros HZ Hplus. unfold ServerData.strip_utc.
  assert (Hs : forall t, Py.replace "+00:00" "" (Py.replace "Z" "+00:00" (s +:+ t))
                         = s +:+ Py.replace "+00:00" "" (Py.replace "Z" "+00:00" t)).
  { intros t. rewrite (replace_app "Z" "" "+00:00" s t HZ).
    apply (replace_app "+" "00:00" "" s _ Hplus). }
  split; [|split; [|split]].
  - pose proof (Hs "") as H0. rewrite (append_empty_r s) in H0.
    exact (eq_trans H0 (append_empty_r s)).
  - rewrite Hs. exact (append_empty_r s).
  - rewrite Hs. exact (append_empty_r s).
  - apply (replace_app "Z" "" "+00:00" s "Z" HZ).
Qed.

Lemma X9_utc_suffix_is_stripped_witness :
  let s := "2024-01-05T10:30:00" in
  Py.has_char "Z" s = false /\
  Py.has_char "+" s = false /\
  ServerData.strip_utc s = s /\
  ServerData.strip_utc (s +:+ "Z") = s /\
  ServerData.strip_utc (s +:+ "+00:00") = s /\
  Py.replace "Z" "+00:00" (s +:+ "Z") = s +:+ "+00:00".
Proof.
  intros s. split; [reflexivity|]. split; [reflexivity|].
  exact (X9_utc_suffix_is_stripped s eq_refl eq_refl).
Defined.

(** ** scripts/chart-server.py: [fetch_from_cache] and [fetch_data] *)

Section ServerFetch.
Import Pandas Py.

Context (now_entry now_exit now : Z)
        (fromisoformat : string -> datetime + string)
        (isoformat strftime : datetime -> string)
        (supabase : option (string -> string -> string -> string
                            -> option (list ServerData.Candle) + string))
        (to_datetime : list string -> option DatetimeIndex)
        (yf_download : string -> string -> string -> string -> DataFrame + string).

Local Abbreviation fetch_data :=
  (ServerData.fetch_data now_entry now_exit now fromisoformat isoformat strftime
     supabase to_datetime yf_download).
Local Abbreviation fetch_without_cache :=
  (ServerData.fetch_data now_entry now_exit now fromisoformat isoformat strftime
     None to_datetime yf_download).
Local Abbreviation fetch_from_cache :=
  (ServerData.fetch_from_cache isoformat supabase to_datetime).
Local Abbreviation entry_date_of := (ServerData.entry_date_of now_entry fromisoformat).
Local Abbreviation exit_date_of := (ServerData.exit_date_of now_exit fromisoformat).

(** The window of two naive dates, case by case. *)
Ltac window_cases interval :=
  unfold ServerData.window, ServerData.padded, ServerData.clamped, gt,
    plus, minus, naive;
  destruct (String.eqb interval "1d"); [|destruct (String.eqb interval "1h")];
  cbn [micros utcoff];
  repeat match goal with H : utcoff _ = None |- _ => rewrite H; clear H end;
  cbn [micros utcoff];
  repeat match goal with |- context [(?a <? ?b)%Z] => destruct (Z.ltb_spec a b) end;
  eexists _, _; (split; [reflexivity|]); cbn [micros utcoff];
  unfold days, hours in *.

(** X10.  For naive dates within the reach of [datetime] (no OverflowError
    at lines 143-163), the window asked of Yahoo Finance never reaches past
    [now], at either end, starts at or before the entry date, and is made of
    two naive dates that are themselves within that reach. *)
Theorem X10_server_window_not_in_future
    (interval : string) (entry_date exit_date : datetime) :
  utcoff entry_date = None ->
  utcoff exit_date = None ->
  ServerData.no_overflow now interval entry_date exit_date ->
  exists start end_,
    ServerData.window now interval entry_date exit_date = inl (start, end_) /\
    utcoff start = None /\ utcoff end_ = None /\
    micros start <= now /\ micros end_ <= now /\
    micros start <= micros entry_date /\
    in_range start /\ in_range end_.
Proof.
  intros He Hx (Hre & Hrx & Hrs & Hrn & Hnow & Hfb).
  unfold in_range in *. revert Hrs Hrn.
  unfold ServerData.window, ServerData.padded, ServerData.clamped, gt,
    plus, minus, naive in *.
  destruct (String.eqb interval "1d"); [|destruct (String.eqb interval "1h")];
    cbn [micros utcoff fst snd] in *; rewrite ?He, ?Hx; intros Hrs Hrn;
    repeat match goal with |- context [(?a <? ?b)%Z] => destruct (Z.ltb_spec a b) end;
    eexists _, _; (split; [reflexivity|]); cbn [micros utcoff];
    unfold days, hours, datetime_min, datetime_max in *; repeat split; lia.
Qed.

(** X11.  For naive dates within the reach of [datetime], with the entry at
    or before the exit, the window is well ordered, and it reaches the exit
    date whenever that date is not in the future. *)
Theorem X11_server_window_covers_trade
    (interval : string) (entry_date exit_date : datetime) :
  utcoff entry_date = None ->
  utcoff exit_date = None ->
  ServerData.no_overflow now interval entry_date exit_date ->
  micros entry_date <= micros exit_date ->
  exists start end_,
    ServerData.window now interval entry_date exit_date = inl (start, end_) /\
    micros start <= micros end_ /\
    micros start <= micros entry_date /\
    (micros exit_date <= now -> micros exit_date <= micros end_).
Proof.
  intros He Hx _ Hle. window_cases interval; repeat split; lia.
Qed.

(** X12.  A date with a UTC offset other than "Z" or "+00:00" stays aware.
    When the dates are within the reach of [datetime] (no OverflowError
    before the comparison), outside the cache path the comparison with [now]
    raises, and [fetch_data] passes the TypeError on instead of
    downloading. *)
Theorem X12_server_aware_date_raises
    (ticker : string) (start_date end_date : option string) (interval : string) :
  interval ∉ ["5m"; "1h"] ->
  utcoff (entry_date_of start_date) <> None \/
  utcoff (exit_date_of end_date) <> None ->
  ServerData.no_overflow now interval (entry_date_of start_date)
    (exit_date_of end_date) ->
  fetch_data ticker start_date end_date interval = inr naive_aware_error.
Proof.
  intros Hday Haware _. unfold ServerData.fetch_data.
  rewrite bool_decide_eq_false_2 by exact Hday.
  unfold ServerData.window, ServerData.padded, ServerData.clamped, gt, plus,
    minus, naive.
  destruct (String.eqb interval "1d"); [|destruct (String.eqb interval "1h")];
    cbn [micros utcoff];
    destruct (utcoff (exit_date_of end_date)) as [ox|]; try reflexivity;
    destruct (utcoff (entry_date_of start_date)) as [oe|]; try reflexivity;
    destruct Haware as [H|H]; contradiction.
Qed.

(** X13.  Without dates the daily chart covers the ninety days before the
    first reading of the clock, up to the last reading, as long as the clock
    does not run backwards. *)
Theorem X13_server_daily_window_without_dates (ticker : string) :
  now_entry <= now ->
  now < now_exit + days 10 ->
  fetch_data ticker None None "1d"
  = yf_download ticker (strftime (naive (now_entry - days 90)))
      (strftime (naive now)) "1d".
Proof.
  intros H1 H3. unfold ServerData.fetch_data.
  rewrite bool_decide_eq_false_2 by (rewrite !elem_of_cons, elem_of_nil;
                                     intros [?|[?|[]]]; discriminate).
  unfold ServerData.window, ServerData.padded, ServerData.clamped, gt, plus,
    minus, naive. cbn.
  destruct (Z.ltb_spec now (now_exit + days 10)); [|lia].
  destruct (Z.ltb_spec now (now_entry - days 60 - days 30)).
  - unfold days in *. lia.
  - replace (now_entry - days 60 - days 30) with (now_entry - days 90)
      by (unfold days; lia).
    reflexivity.
Qed.

(** The intervals of [CACHE_PADDING] are those for which [fetch_data]
    consults the cache. *)
Lemma cache_padding_keys (interval : string) :
  is_Some (ServerData.CACHE_PADDING !! interval) <-> interval ∈ ["5m"; "1h"].
Proof.
  unfold ServerData.CACHE_PADDING. rewrite !elem_of_cons, elem_of_nil.
  destruct (decide (interval = "5m")) as [->|H5].
  { rewrite lookup_insert_eq. split; [auto | eauto]. }
  rewrite lookup_insert_ne by congruence.
  destruct (decide (interval = "1h")) as [->|H1].
  { rewrite lookup_insert_eq. split; [auto | eauto]. }
  rewrite lookup_insert_ne by congruence. rewrite lookup_empty.
  split; [intros [x Hx]; discriminate | intros [?|[?|[]]]; contradiction].
Qed.

Lemma fetch_from_cache_interval (ticker interval : string)
    (entry_date exit_date : datetime) (df : DataFrame) :
  fetch_from_cache ticker interval entry_date exit_date = Some df ->
  interval ∈ ["5m"; "1h"].
Proof.
  unfold ServerData.fetch_from_cache. intros H. apply cache_padding_keys.
  destruct supabase; [|discriminate].
  destruct (ServerData.CACHE_PADDING !! interval); [eauto | discriminate].
Qed.

(** X14.  A non-empty frame from the cache is what [fetch_data] returns,
    whatever Yahoo Finance would answer and whatever the dates are; the cache
    gives a frame for the intervals 5m and 1h only. *)
Theorem X14_server_cache_hit_wins
    (ticker : string) (start_date end_date : option string) (interval : string)
    (df : DataFrame) :
  fetch_from_cache ticker interval (entry_date_of start_date)
    (exit_date_of end_date) = Some df ->
  rows df <> [] ->
  fetch_data ticker start_date end_date interval = inl df /\
  interval ∈ ["5m"; "1h"].
Proof.
  intros Hhit Hne.
  pose proof (fetch_from_cache_interval _ _ _ _ _ Hhit) as Hin.
  split; [|exact Hin].
  unfold ServerData.fetch_data. rewrite bool_decide_eq_true_2 by exact Hin.
  rewrite Hhit. unfold empty. destruct (rows df); [contradiction | reflexivity].
Qed.

(** X15.  For an interval other than 5m and 1h, or when the cache gives no
    frame or an empty one, [fetch_data] behaves as it does without a cache
    client. *)
Theorem X15_server_cache_miss_falls_back
    (ticker : string) (start_date end_date : option string) (interval : string) :
  interval ∉ ["5m"; "1h"] \/
  (forall df, fetch_from_cache ticker interval (entry_date_of start_date)
                (exit_date_of end_date) = Some df -> rows df = []) ->
  fetch_data ticker start_date end_date interval
  = fetch_without_cache ticker start_date end_date interval.
Proof.
  intros H. unfold ServerData.fetch_data.
  assert (Hnone : ServerData.fetch_from_cache isoformat None to_datetime ticker
                    interval (entry_date_of start_date) (exit_date_of end_date) = None)
    by reflexivity.
  rewrite Hnone.
  destruct (bool_decide (interval ∈ ["5m"; "1h"])) eqn:E; [|reflexivity].
  destruct H as [H|H]; [apply bool_decide_eq_true in E; contradiction|].
  destruct (fetch_from_cache ticker interval _ _) as [df|] eqn:Ec; [|reflexivity].
  unfold empty. rewrite (H df eq_refl). reflexivity.
Qed.

(** What makes the cache give no frame: no client, an exception of the
    client, a row without candles, or times that do not parse. *)
Lemma fetch_from_cache_misses (ticker interval : string)
    (entry_date exit_date : datetime) :
  supabase = None \/
  (exists table padding,
     supabase = Some table /\
     ServerData.CACHE_PADDING !! interval = Some padding /\
     let answer := table ticker interval
                     (isoformat (minus entry_date (seconds (fst padding))))
                     (isoformat (plus exit_date (seconds (snd padding)))) in
     (exists e, answer = inr e) \/ answer = inl None \/ answer = inl (Some []) \/
     (exists cs, answer = inl (Some cs) /\
                 to_datetime (map ServerData.c_time cs) = None)) ->
  fetch_from_cache ticker interval entry_date exit_date = None.
Proof.
  unfold ServerData.fetch_from_cache.
  intros [-> | (table & padding & -> & -> & Hans)]; [reflexivity|].
  simpl in Hans.
  destruct Hans as [[e ->] | [-> | [-> | (cs & -> & Hcs)]]]; try reflexivity.
  destruct cs; [reflexivity|]. rewrite Hcs. reflexivity.
Qed.

(** X17.  An interval other than 1d, 1h and 5m is served with the window
    of the 5m charts and the daily bars of Yahoo Finance. *)
Theorem X17_server_unknown_interval
    (ticker : string) (start_date end_date : option string) (interval : string) :
  interval ∉ ["1d"; "1h"; "5m"] ->
  fetch_data ticker start_date end_date interval
  = match ServerData.window now "5m" (entry_date_of start_date)
            (exit_date_of end_date) with
    | inl (start, end_) => yf_download ticker (strftime start) (strftime end_) "1d"
    | inr e => inr e
    end.
Proof.
  intros Hun. rewrite !elem_of_cons, elem_of_nil in Hun.
  assert (Hd : String.eqb interval "1d" = false)
    by (apply String.eqb_neq; intros ->; apply Hun; auto).
  assert (Hh : String.eqb interval "1h" = false)
    by (apply String.eqb_neq; intros ->; apply Hun; auto).
  unfold ServerData.fetch_data.
  rewrite bool_decide_eq_false_2
    by (rewrite !elem_of_cons, elem_of_nil; intros [->|[->|[]]]; apply Hun; auto).
  assert (Hyf : ServerData.yf_interval interval = "1d").
  { unfold ServerData.yf_interval.
    rewrite !lookup_insert_ne, lookup_empty; [reflexivity| | |];
      intros <-; apply Hun; auto. }
  rewrite Hyf.
  unfold ServerData.window, ServerData.padded, ServerData.clamped.
  rewrite Hd, Hh. reflexivity.
Qed.

(** X18.  A date that [fromisoformat] rejects is treated as a missing one,
    at either end. *)
Theorem X18_server_bad_date_is_no_date
    (ticker : string) (start_date end_date : option string) (interval : string)
    (s e : string) :
  fromisoformat (ServerData.strip_utc s) = inr e ->
  fetch_data ticker (Some s) end_date interval
  = fetch_data ticker None end_date interval /\
  fetch_data ticker start_date (Some s) interval
  = fetch_data ticker start_date None interval.
Proof.
  intros H. unfold ServerData.fetch_data, ServerData.entry_date_of,
    ServerData.exit_date_of.
  rewrite H. split; [reflexivity|].
  destruct (String.eqb s ""); reflexivity.
Qed.

End ServerFetch.

(** ** api/chart-image/index.py: [fetch_data] *)


(** ** Instances of the further properties *)

Lemma example_low_under_high : low_under_high Example.daily.
Proof.
  unfold low_under_high. repeat constructor; unfold Qle; simpl; lia.
Qed.

Lemma X1_server_markers_inside_range_witness :
  let legs := [Example.leg "ENTRY" "1970-01-03" 100; Example.leg "EXIT" "1970-01-05" 110] in
  Pandas.rows Example.daily <> [] /\
  low_under_high Example.daily /\
  exists fig,
    DataExample.server_chart legs = Png fig /\
    Forall (fun m => (fst (Mpl.ylim fig) <= Mpl.y_pos m)%Q /\
                     (Mpl.y_pos m <= snd (Mpl.ylim fig))%Q)
           (Mpl.markers fig).
Proof.
  intros legs.
  assert (Hne : Pandas.rows Example.daily <> []) by discriminate.
  split; [exact Hne|]. split; [exact example_low_under_high|].
  exact (X1_server_markers_inside_range Example.clock Pandas.nearest
           Example.engine_ylim "AAPL" Example.daily legs 100 None "LONG" "1d"
           Hne example_low_under_high).
Defined.

Lemma X2_server_same_side_apart_witness :
  let a := Example.leg "ENTRY" "1970-01-03" 100 in
  let b := Example.leg "ADD" "1970-01-03" 101 in
  ChartServer.resolve Example.clock Pandas.nearest Example.daily a = Some 2 /\
  ChartServer.resolve Example.clock Pandas.nearest Example.daily b = Some 2 /\
  ChartServer.is_buy a = ChartServer.is_buy b /\
  exists fig ma mb,
    DataExample.server_chart ([] ++ a :: [] ++ b :: []) = Png fig /\
    Mpl.markers fig !! ChartServer.placed Example.clock Pandas.nearest
                         Example.daily [] = Some ma /\
    Mpl.markers fig !! ChartServer.placed Example.clock Pandas.nearest
                         Example.daily ([] ++ a :: []) = Some mb /\
    (Mpl.x_pos ma < Mpl.x_pos mb)%Q.
Proof.
  intros a b.
  split; [reflexivity|]. split; [reflexivity|]. split; [reflexivity|].
  exact (X2_server_same_side_apart Example.clock Pandas.nearest Example.engine_ylim
           "AAPL" Example.daily [] [] [] a b 2 100 None "LONG" "1d"
           eq_refl eq_refl eq_refl).
Defined.

Lemma X6_no_more_markers_than_legs_witness :
  let legs := [Example.leg "ENTRY" "1970-01-03" 100; Example.leg "EXIT" "soon" 110] in
  Pandas.rows Example.daily <> [] /\
  exists fig,
    DataExample.server_chart legs = Png fig /\
    (length (Mpl.markers fig) <= length legs)%nat.
Proof.
  intros legs.
  assert (Hne : Pandas.rows Example.daily <> []) by discriminate.
  split; [exact Hne|].
  exact (X6_no_more_markers_than_legs Example.clock Pandas.nearest Example.engine_ylim
           "AAPL" Example.daily legs 100 None "LONG" "1d" Hne).
Defined.

Lemma X8_server_request_without_parameters_witness :
  Example.fetch_daily "AAPL" None None "1d" = inl Example.daily /\
  Pandas.rows Example.daily <> [] /\
  exists fig,
    ChartServer.handle_chart_request Example.clock Pandas.nearest Example.engine_ylim
      Example.fetch_daily DataExample.empty_query = Response200 fig /\
    Mpl.title fig = "AAPL - Daily" /\
    Mpl.hlines fig = [ {| Mpl.line_y := 0; Mpl.line_color := green |} ] /\
    Mpl.markers fig = [].
Proof.
  assert (Hne : Pandas.rows Example.daily <> []) by discriminate.
  split; [reflexivity|]. split; [exact Hne|].
  exact (X8_server_request_without_parameters Example.clock Pandas.nearest
           Example.engine_ylim Example.fetch_daily Example.daily eq_refl Hne).
Defined.

Lemma X10_server_window_not_in_future_witness :
  let entry_date := Py.naive (20 * 86400000000) in
  let exit_date := Py.naive (25 * 86400000000) in
  Py.utcoff entry_date = None /\
  Py.utcoff exit_date = None /\
  ServerData.no_overflow DataExample.now "1d" entry_date exit_date /\
  exists start end_,
    ServerData.window DataExample.now "1d" entry_date exit_date = inl (start, end_) /\
    Py.utcoff start = None /\ Py.utcoff end_ = None /\
    Py.micros start <= DataExample.now /\ Py.micros end_ <= DataExample.now /\
    Py.micros start <= Py.micros entry_date /\
    Py.in_range start /\ Py.in_range end_.
Proof.
  intros entry_date exit_date.
  assert (Hr : ServerData.no_overflow DataExample.now "1d" entry_date exit_date)
    by (repeat split; vm_compute; discriminate).
  split; [reflexivity|]. split; [reflexivity|]. split; [exact Hr|].
  exact (X10_server_window_not_in_future DataExample.now "1d" entry_date exit_date
           eq_refl eq_refl Hr).
Defined.

Lemma X11_server_window_covers_trade_witness :
  let entry_date := Py.naive (2 * 86400000000) in
  let exit_date := Py.naive (4 * 86400000000) in
  Py.utcoff entry_date = None /\
  Py.utcoff exit_date = None /\
  ServerData.no_overflow DataExample.now "1h" entry_date exit_date /\
  Py.micros entry_date <= Py.micros exit_date /\
  exists start end_,
    ServerData.window DataExample.now "1h" entry_date exit_date = inl (start, end_) /\
    Py.micros start <= Py.micros end_ /\
    Py.micros start <= Py.micros entry_date /\
    (Py.micros exit_date <= DataExample.now -> Py.micros exit_date <= Py.micros end_).
Proof.
  intros entry_date exit_date.
  assert (Hle : Py.micros entry_date <= Py.micros exit_date) by (simpl; lia).
  assert (Hr : ServerData.no_overflow DataExample.now "1h" entry_date exit_date)
    by (repeat split; vm_compute; discriminate).
  split; [reflexivity|]. split; [reflexivity|]. split; [exact Hr|].
  split; [exact Hle|].
  exact (X11_server_window_covers_trade DataExample.now "1h" entry_date exit_date
           eq_refl eq_refl Hr Hle).
Defined.

Lemma X12_server_aware_date_raises_witness :
  let start_date := Some "1970-01-03T00:00:00+01:00" in
  ("1d" ∉ ["5m"; "1h"]) /\
  (Py.utcoff (ServerData.entry_date_of DataExample.now DataExample.fromisoformat
                start_date) <> None \/
   Py.utcoff (ServerData.exit_date_of DataExample.now DataExample.fromisoformat
                None) <> None) /\
  ServerData.no_overflow DataExample.now "1d"
    (ServerData.entry_date_of DataExample.now DataExample.fromisoformat start_date)
    (ServerData.exit_date_of DataExample.now DataExample.fromisoformat None) /\
  DataExample.server_fetch "AAPL" start_date None "1d" = inr Py.naive_aware_error.
Proof.
  intros start_date.
  assert (Hd : "1d" ∉ ["5m"; "1h"])
    by (rewrite !elem_of_cons, elem_of_nil; intros [?|[?|[]]]; discriminate).
  assert (Ha : Py.utcoff (ServerData.entry_date_of DataExample.now
                            DataExample.fromisoformat start_date) <> None \/
               Py.utcoff (ServerData.exit_date_of DataExample.now
                            DataExample.fromisoformat None) <> None)
    by (left; vm_compute; discriminate).
  assert (Hr : ServerData.no_overflow DataExample.now "1d"
                 (ServerData.entry_date_of DataExample.now DataExample.fromisoformat
                    start_date)
                 (ServerData.exit_date_of DataExample.now DataExample.fromisoformat
                    None))
    by (repeat split; vm_compute; discriminate).
  split; [exact Hd|]. split; [exact Ha|]. split; [exact Hr|].
  exact (X12_server_aware_date_raises DataExample.now DataExample.now DataExample.now
           DataExample.fromisoformat DataExample.strftime DataExample.strftime
           DataExample.supabase DataExample.to_datetime DataExample.yf_download
           "AAPL" start_date None "1d" Hd Ha Hr).
Defined.

Lemma X13_server_daily_window_without_dates_witness :
  DataExample.now <= DataExample.now /\
  DataExample.now < DataExample.now + Py.days 10 /\
  DataExample.server_fetch "AAPL" None None "1d"
  = DataExample.yf_download "AAPL"
      (DataExample.strftime (Py.naive (DataExample.now - Py.days 90)))
      (DataExample.strftime (Py.naive DataExample.now)) "1d".
Proof.
  assert (H1 : DataExample.now <= DataExample.now) by lia.
  assert (H2 : DataExample.now < DataExample.now + Py.days 10)
    by (unfold Py.days; lia).
  split; [exact H1|]. split; [exact H2|].
  exact (X13_server_daily_window_without_dates DataExample.now DataExample.now
           DataExample.now DataExample.fromisoformat DataExample.strftime
           DataExample.strftime DataExample.supabase DataExample.to_datetime
           DataExample.yf_download "AAPL" H1 H2).
Defined.

Lemma X14_server_cache_hit_wins_witness :
  let start_date := Some "1970-01-03" in
  let end_date := Some "1970-01-04" in
  let df := ServerData.frame_of_candles
              {| Pandas.index_tz := Some Pandas.UTC;
                 Pandas.index_values := [2 * Example.day; 3 * Example.day] |}
              DataExample.candles in
  ServerData.fetch_from_cache DataExample.strftime DataExample.supabase
    DataExample.to_datetime "AAPL" "5m"
    (ServerData.entry_date_of DataExample.now DataExample.fromisoformat start_date)
    (ServerData.exit_date_of DataExample.now DataExample.fromisoformat end_date)
  = Some df /\
  Pandas.rows df <> [] /\
  DataExample.server_fetch "AAPL" start_date end_date "5m" = inl df /\
  "5m" ∈ ["5m"; "1h"].
Proof.
  intros start_date end_date df.
  assert (Hne : Pandas.rows df <> []) by discriminate.
  split; [reflexivity|]. split; [exact Hne|].
  exact (X14_server_cache_hit_wins DataExample.now DataExample.now DataExample.now
           DataExample.fromisoformat DataExample.strftime DataExample.strftime
           DataExample.supabase DataExample.to_datetime DataExample.yf_download
           "AAPL" start_date end_date "5m" df eq_refl Hne).
Defined.

Lemma X15_server_cache_miss_falls_back_witness :
  let cache := ServerData.fetch_from_cache DataExample.strftime DataExample.supabase
                 DataExample.to_datetime "AAPL" "1d"
                 (ServerData.entry_date_of DataExample.now DataExample.fromisoformat None)
                 (ServerData.exit_date_of DataExample.now DataExample.fromisoformat None) in
  ("1d" ∉ ["5m"; "1h"] \/ (forall df, cache = Some df -> Pandas.rows df = [])) /\
  DataExample.server_fetch "AAPL" None None "1d"
  = ServerData.fetch_data DataExample.now DataExample.now DataExample.now
      DataExample.fromisoformat DataExample.strftime DataExample.strftime None
      DataExample.to_datetime DataExample.yf_download "AAPL" None None "1d".
Proof.
  intros cache.
  assert (H : "1d" ∉ ["5m"; "1h"] \/ (forall df, cache = Some df -> Pandas.rows df = [])).
  { left. rewrite !elem_of_cons, elem_of_nil. intros [?|[?|[]]]; discriminate. }
  split; [exact H|].
  exact (X15_server_cache_miss_falls_back DataExample.now DataExample.now
           DataExample.now DataExample.fromisoformat DataExample.strftime
           DataExample.strftime DataExample.supabase DataExample.to_datetime
           DataExample.yf_download "AAPL" None None "1d" H).
Defined.


Lemma X17_server_unknown_interval_witness :
  ("1wk" ∉ ["1d"; "1h"; "5m"]) /\
  DataExample.server_fetch "AAPL" (Some "1970-01-03") (Some "1970-01-05") "1wk"
  = match ServerData.window DataExample.now "5m"
            (ServerData.entry_date_of DataExample.now DataExample.fromisoformat
               (Some "1970-01-03"))
            (ServerData.exit_date_of DataExample.now DataExample.fromisoformat
               (Some "1970-01-05")) with
    | inl (start, end_) =>
        DataExample.yf_download "AAPL" (DataExample.strftime start)
          (DataExample.strftime end_) "1d"
    | inr e => inr e
    end.
Proof.
  assert (H : "1wk" ∉ ["1d"; "1h"; "5m"]).
  { rewrite !elem_of_cons, elem_of_nil. intros [?|[?|[?|[]]]]; discriminate. }
  split; [exact H|].
  exact (X17_server_unknown_interval DataExample.now DataExample.now DataExample.now
           DataExample.fromisoformat DataExample.strftime DataExample.strftime
           DataExample.supabase DataExample.to_datetime DataExample.yf_download
           "AAPL" (Some "1970-01-03") (Some "1970-01-05") "1wk" H).
Defined.

Lemma X18_server_bad_date_is_no_date_witness :
  DataExample.fromisoformat (ServerData.strip_utc "yesterday")
  = inr "Invalid isoformat string" /\
  DataExample.server_fetch "AAPL" (Some "yesterday") None "1d"
  = DataExample.server_fetch "AAPL" None None "1d" /\
  DataExample.server_fetch "AAPL" None (Some "yesterday") "1d"
  = DataExample.server_fetch "AAPL" None None "1d".
Proof.
  split; [reflexivity|].
  exact (X18_server_bad_date_is_no_date DataExample.now DataExample.now
           DataExample.now DataExample.fromisoformat DataExample.strftime
           DataExample.strftime DataExample.supabase DataExample.to_datetime
           DataExample.yf_download "AAPL" None None "1d" "yesterday"
           "Invalid isoformat string" eq_refl).
Defined.
